(** * A shallow embedding of [src/services/firebaseService.ts]

    The module under study is a data-access facade between a food-ordering
    client and a realtime-database backend.  Its functions are [async]
    wrappers around backend calls; what they compute is the normalisation of
    the JSON values they read.  The embedding therefore has three layers:

    - [Js]: the fragment of JavaScript values and coercions the source uses
      (truthiness, [||], [toString], [parseFloat], object spread);
    - the facade functions, written as functions of the backend's answer
      (a fulfilled read with its snapshot, or a rejected read);
    - the order listener, whose promise callbacks run after the synchronous
      traversal of the snapshot, as explicit phases over a state record. *)

From Stdlib Require Import QArith Qcanon.
From stdpp Require Import base numbers strings list gmap fin_maps pretty sorting.

#[local] Set Warnings "-register-all".

(** ** JavaScript values *)

Module Js.

(** A JavaScript number.  The source computes with IEEE doubles; the model
    keeps [NaN] (which the coercions of the source produce and test for) and
    represents every other number by an exact rational.  Rounding, signed
    zeros and infinities are outside the model: the only division of the
    source is by the literal [100]. *)
Inductive number :=
| NaN
| Fin (q : Qc).

(** An integer literal of the source. *)
Definition num_of_Z (z : Z) : number := Fin (Qc_of_Z z).

Definition num_mul (a b : number) : number :=
  match a, b with
  | Fin x, Fin y => Fin (x * y)%Qc
  | _, _ => NaN
  end.

Definition num_sub (a b : number) : number :=
  match a, b with
  | Fin x, Fin y => Fin (x - y)%Qc
  | _, _ => NaN
  end.

Definition num_div (a b : number) : number :=
  match a, b with
  | Fin x, Fin y => if Qc_eq_bool y 0 then NaN else Fin (x / y)%Qc
  | _, _ => NaN
  end.

(** The values a JSON store can return, with [undefined] for absent
    properties.  An object is a finite map from property names to values. *)
Inductive JsVal :=
| JUndefined
| JNull
| JBool (b : bool)
| JNum (n : number)
| JStr (s : string)
| JArr (xs : list JsVal)
| JObj (fields : gmap string JsVal).

(** An object under construction, as in [const dish = { ... }]. *)
Abbreviation obj := (gmap string JsVal).

(** [ToBoolean]. *)
Definition truthy (v : JsVal) : bool :=
  match v with
  | JUndefined | JNull => false
  | JBool b => b
  | JNum NaN => false
  | JNum (Fin q) => negb (Qc_eq_bool q 0)
  | JStr s => negb (String.eqb s "")
  | JArr _ | JObj _ => true
  end.

(** [a || b]. *)
Definition js_or (a b : JsVal) : JsVal := if truthy a then a else b.

(** [o.k] on an object in construction: [undefined] when [k] is absent. *)
Definition prop (o : obj) (k : string) : JsVal := default JUndefined (o !! k).

(** [v.k] for a value with own properties only.  Every name the source reads
    is a data field ([price], [userId], ...), none of which exists on the
    prototypes of strings, arrays, numbers or booleans. *)
Definition get (v : JsVal) (k : string) : JsVal :=
  match v with
  | JObj o => prop o k
  | _ => JUndefined
  end.

(** [v?.k]. *)
Definition get_opt (v : JsVal) (k : string) : JsVal :=
  match v with
  | JUndefined | JNull => JUndefined
  | _ => get v k
  end.

(** [{ ...v }]: the own enumerable properties of [v]. *)
Definition spread (v : JsVal) : obj :=
  match v with
  | JObj o => o
  | JArr xs => list_to_map (imap (λ i x, (pretty i, x)) xs)
  | JStr s =>
      list_to_map
        (imap (λ i c, (pretty i, JStr (String c EmptyString)))
              (String.list_ascii_of_string s))
  | _ => ∅
  end.

(** [v === s] for a string [s]. *)
Definition strict_eq_str (v : JsVal) (s : string) : bool :=
  match v with
  | JStr t => String.eqb t s
  | _ => false
  end.

(** [typeof v === 'object']. *)
Definition typeof_object (v : JsVal) : bool :=
  match v with
  | JNull | JArr _ | JObj _ => true
  | _ => false
  end.

(** [Array.isArray(v) && v.length > 0]. *)
Definition nonempty_array (v : JsVal) : bool :=
  match v with
  | JArr (_ :: _) => true
  | _ => false
  end.

(** [key || ''] for a snapshot key. *)
Definition key_or_empty (key : string) : string :=
  if String.eqb key "" then "" else key.

Section Coercions.
(** The number/string conversions of the language are not part of the
    repository; the facade is verified for every behaviour of them. *)
Variable NumberToString : number → string.
Variable StringToNumber : string → number.
(** [parseFloat] on a string argument. *)
Variable parseFloatString : string → number.

(** [ToString], also the result of [v.toString()] on the truthy values the
    source calls it on.  Objects are plain records and do not shadow
    [toString]. *)
Fixpoint ToString (v : JsVal) : string :=
  match v with
  | JUndefined => "undefined"
  | JNull => "null"
  | JBool true => "true"
  | JBool false => "false"
  | JNum n => NumberToString n
  | JStr s => s
  | JArr xs =>
      let element x :=
        match x with
        | JUndefined | JNull => ""
        | _ => ToString x
        end in
      String.concat "," (List.map element xs)
  | JObj _ => "[object Object]"
  end.

(** [ToNumber], applied by [*], [-] and [/]. *)
Definition ToNumber (v : JsVal) : number :=
  match v with
  | JUndefined => NaN
  | JNull => num_of_Z 0
  | JBool true => num_of_Z 1
  | JBool false => num_of_Z 0
  | JNum n => n
  | JStr s => StringToNumber s
  | JArr _ | JObj _ => StringToNumber (ToString v)
  end.

(** [parseFloat(v)]: the argument is converted to a string and parsed; a
    number survives the round trip. *)
Definition parseFloat (v : JsVal) : number :=
  match v with
  | JNum n => n
  | _ => parseFloatString (ToString v)
  end.

(** [a * b], [a - b], [a / b] on arbitrary values. *)
Definition js_mul (a b : JsVal) : number := num_mul (ToNumber a) (ToNumber b).
Definition js_sub (a b : JsVal) : number := num_sub (ToNumber a) (ToNumber b).
Definition js_div (a b : JsVal) : number := num_div (ToNumber a) (ToNumber b).
End Coercions.

End Js.

Import Js.

(** ** The backend boundary *)

(** The settlement of a promise: fulfilled with a value, or rejected. *)
Inductive result (A : Type) :=
| Ok (a : A)
| Throw (e : JsVal).
Arguments Ok {A} a.
Arguments Throw {A} e.

(** The children of a collection snapshot, as [(key, val())] pairs in the
    order [snapshot.forEach] visits them. *)
Abbreviation children := (list (string * JsVal)).

(** [snapshot.forEach(c => ...)] with a callback that never returns [true]:
    every child is visited, in order, and the callback updates the local
    variables of the enclosing function. *)
Definition forEach {S : Type} (snapshot : children)
    (callback : S → string * JsVal → S) (init : S) : S :=
  foldl callback init snapshot.

(** [array.push(x)]. *)
Definition push {A : Type} (array : list A) (x : A) : list A := array ++ [x].

(** The key-value store behind [set(ref(db, path), value)], by path. *)
Abbreviation database := (gmap string JsVal).

Definition db_set (path : string) (value : JsVal) (db : database) : database :=
  <[path := value]> db.

(** [{ downloadURL, title }] *)
Record SliderImage := {
  downloadURL : JsVal;
  title : JsVal
}.

(** [AppSettings] and the two records nested in it. *)
Record ThemeSettings := { customerThemeColor : JsVal }.
Record DeliverySettings := { deliveryFee : number; freeDeliveryThreshold : number }.
Record AppSettings := { theme : ThemeSettings; delivery : DeliverySettings }.

(** Reading the store at a path: [snapshot.val()], [null] when nothing is
    stored there. *)
Definition db_get (path : string) (db : database) : JsVal :=
  default JNull (db !! path).

(** [snapshot.exists()]: the snapshot holds a value. *)
Definition snapshot_exists (val : JsVal) : bool :=
  match val with
  | JNull | JUndefined => false
  | _ => true
  end.

(** [UserData], as [fetchUserData] builds it. *)
Record Address := {
  state : JsVal;
  district : JsVal;
  line : JsVal
}.

Record UserData := {
  uid : string;
  name : JsVal;
  email : JsVal;
  mobile : JsVal;
  pincode : JsVal;
  address : Address;
  profileImageUrl : JsVal;
  createdAt : JsVal
}.

(** ** Concrete data for the examples *)

Module Samples.

(** Stand-ins for the conversions of the language, enough to run the
    examples, whose numbers are integers: an integer prints in decimal, and
    no string is read as a numeral. *)
Definition NumberToString (n : number) : string :=
  match n with
  | NaN => "NaN"
  | Fin q => pretty (Qnum q)
  end.
Definition StringToNumber (s : string) : number := NaN.
Definition parseFloatString (s : string) : number := NaN.

Definition object (fields : list (string * JsVal)) : JsVal :=
  JObj (list_to_map fields).
Definition int (z : Z) : JsVal := JNum (num_of_Z z).

(** A dish for pincode 560002, priced 100 with 10% off. *)
Definition dish_560002 : JsVal :=
  object [("name", JStr "Dosa"); ("pincode", JStr "560002");
          ("price", object [("final", int 100); ("restaurantPrice", int 90);
                            ("adminFee", int 10)]);
          ("discount", int 10)].

(** A dish sold everywhere. *)
Definition dish_all : JsVal :=
  object [("name", JStr "Idli"); ("pincode", JStr "ALL");
          ("price", object [("final", int 40)])].

Definition dishes_snapshot : children :=
  [("d1", dish_560002); ("d2", dish_all)].

(** A placeholder dish as a constants file would declare it: stored fields
    only. *)
Definition placeholder_dishes : list obj :=
  [list_to_map
     [("key", JStr "p1"); ("name", JStr "Sample");
      ("price", object [("final", int 100)]); ("discount", int 10)]].

Definition banners_snapshot : children :=
  [("b1", object [("title", JStr "no picture")]);
   ("b2", object [("imageUrl", JStr ""); ("title", JStr "empty picture")])].

(** A status table sending the backend code [out_for_delivery] to 'On Way';
    [delivered] has no entry. *)
Definition status_map : obj :=
  list_to_map [("pending", JStr "Processing");
               ("out_for_delivery", JStr "On Way")].

Definition order (userId status : string) (dboyId : option string)
    (timestamp : Z) : JsVal :=
  object ([("userId", JStr userId); ("status", JStr status);
           ("timestamp", int timestamp)]
          ++ match dboyId with
             | Some id => [("dboyId", JStr id)]
             | None => []
             end).

(** Two orders of user [u1] on their way with the same driver, one order of
    another user, and one delivered order of [u1]. *)
Definition orders_snapshot : children :=
  [("o1", order "u1" "out_for_delivery" (Some "driver7") 1000);
   ("o2", order "u1" "out_for_delivery" (Some "driver7") 3000);
   ("o3", order "u2" "out_for_delivery" (Some "driver7") 2000);
   ("o4", order "u1" "delivered" None 2000)].

Definition simulated_driver : JsVal :=
  object [("name", JStr "Simulated Driver"); ("mobile", JStr "0000000000")].

(** Every lookup is rejected. *)
Definition backend_down (i : nat) : result JsVal := Throw (JStr "offline").

(** A dish stored with a scalar price and no pincode. *)
Definition dish_scalar_fields : obj :=
  list_to_map [("name", JStr "Vada"); ("price", int 30); ("discount", int 50)].
Definition dish_scalar : JsVal := JObj dish_scalar_fields.

(** A dish whose stored price is not a numeral. *)
Definition dish_unparsable : JsVal :=
  object [("name", JStr "Special"); ("price", JStr "ask")].

(** The fields of [order]. *)
Definition order_fields (userId status : string) (dboyId : option string)
    (timestamp : Z) : obj :=
  list_to_map ([("userId", JStr userId); ("status", JStr status);
                ("timestamp", int timestamp)]
               ++ match dboyId with
                  | Some id => [("dboyId", JStr id)]
                  | None => []
                  end).

(** A dish whose stored record has its own [key] field. *)
Definition dish_own_key : obj :=
  list_to_map [("key", JStr "legacy-7"); ("k", JStr "legacy-k");
               ("id", JStr "legacy-id"); ("name", JStr "Pongal")].

Definition categories_snapshot : children :=
  [("c1", object [("name", JStr "Breakfast")]);
   ("c2", object [("name", JStr "Lunch"); ("id", JStr "own-id")])].

Definition banners_with_image : children :=
  [("b1", object [("title", JStr "no picture")]);
   ("b2", object [("imageUrl", JStr "https://example.org/b2.png");
                  ("title", JStr "offer")])].

(** Settings that store a delivery fee of 0. *)
Definition settings_free_delivery : JsVal :=
  object [("delivery", object [("deliveryFee", int 0);
                               ("freeDeliveryThreshold", int 200)])].

(** The record of a delivery partner without a profile image. *)
Definition driver_record : JsVal :=
  object [("name", JStr "Ravi"); ("mobile", JStr "9999999999")].

(** Every lookup finds the same driver record. *)
Definition backend_up (i : nat) : result JsVal := Ok driver_record.

(** Orders that store no timestamp. *)
Definition orders_without_timestamp : children :=
  [("a", object [("userId", JStr "u1"); ("status", JStr "pending")]);
   ("b", object [("userId", JStr "u1"); ("status", JStr "out_for_delivery");
                 ("dboyId", JStr "driver7")])].

Definition wishlist_snapshot : children :=
  [("d1", object [("key", JStr "d1"); ("name", JStr "Dosa")]);
   ("d2", object [("key", JStr "d2"); ("name", JStr "Idli")])].

Definition user_data : obj :=
  list_to_map [("name", JStr "Asha"); ("createdAt", JStr "1999-01-01T00:00:00.000Z")].

End Samples.

Section Facade.
Variable NumberToString : number → string.
Variable StringToNumber : string → number.
Variable parseFloatString : string → number.

(** The constants of [../constants], which is not among the sources. *)
Variable PLACEHOLDER_DISHES : list obj.
Variable PLACEHOLDER_CATEGORIES : list obj.
Variable PLACEHOLDER_SLIDER_IMAGES : list SliderImage.
Variable SIMULATED_DRIVER : JsVal.
Variable CUSTOMER_STATUS_MAP : obj.

#[local] Abbreviation ToString := (Js.ToString NumberToString).
#[local] Abbreviation ToNumber := (Js.ToNumber NumberToString StringToNumber).
#[local] Abbreviation parseFloat := (Js.parseFloat NumberToString parseFloatString).
#[local] Abbreviation js_mul := (Js.js_mul NumberToString StringToNumber).
#[local] Abbreviation js_div := (Js.js_div NumberToString StringToNumber).
#[local] Abbreviation js_sub := (Js.js_sub NumberToString StringToNumber).

(** *** User data *)

(** [saveNewUserData]: [now] is the reading of [new Date().toISOString()]. *)
Definition saveNewUserData (uid : string) (data : obj) (now : string)
    (db : database) : database :=
  db_set ("users/" +:+ uid) (JObj (<["createdAt" := JStr now]> data)) db.

(** *** App settings *)

Definition default_settings : AppSettings :=
  {| theme := {| customerThemeColor := JStr "#673AB7" |};
     delivery := {| deliveryFee := num_of_Z 10;
                    freeDeliveryThreshold := num_of_Z 0 |} |}.

Definition fetchAppSettings (read : result JsVal) : AppSettings :=
  match read with
  | Ok snapshot_val =>
      let settings := js_or snapshot_val (JObj ∅) in
      {| theme :=
           {| customerThemeColor :=
                js_or (get_opt (get settings "theme") "customerThemeColor")
                      (JStr "#673AB7") |};
         delivery :=
           {| deliveryFee :=
                parseFloat (js_or (get_opt (get settings "delivery") "deliveryFee")
                                  (JNum (num_of_Z 10)));
              freeDeliveryThreshold :=
                parseFloat
                  (js_or (get_opt (get settings "delivery") "freeDeliveryThreshold")
                         (JNum (num_of_Z 0))) |} |}
  | Throw e => default_settings
  end.

(** *** Categories *)

Definition fetchCategories (read : result children) : list obj :=
  match read with
  | Ok snapshot =>
      let categoriesData :=
        forEach snapshot
          (λ categoriesData '(key, val),
             push categoriesData (spread val ∪ {["id" := JStr (key_or_empty key)]}))
          [] in
      if bool_decide (0 < length categoriesData) then categoriesData
      else PLACEHOLDER_CATEGORIES
  | Throw error => PLACEHOLDER_CATEGORIES
  end.

(** *** Dishes *)

Definition default_image : JsVal := JStr "https://picsum.photos/150/110".

(** The body of the [forEach] callback of [fetchDishes] up to the pincode
    test: the record with its defaults, coercions and derived fields. *)
Definition normalize_dish (key : string) (val : JsVal) : obj :=
  let dish := spread val ∪ {["key" := JStr (key_or_empty key)]} in
  let dish :=
    <["categoryId" :=
        JStr (ToString (js_or (prop dish "categoryId") (JStr "uncategorized")))]> dish in
  let dish :=
    <["pincode" := JStr (ToString (js_or (prop dish "pincode") (JStr "ALL")))]> dish in
  let dish := <["discount" := js_or (prop dish "discount") (JNum (num_of_Z 0))]> dish in
  let dish := <["unit" := js_or (prop dish "unit") (JStr "Unit N/A")]> dish in
  let dish :=
    <["description" :=
        js_or (prop dish "description") (JStr "No description available.")]> dish in
  let dish :=
    <["isInStock" :=
        match prop dish "isInStock" with
        | JUndefined => JBool true
        | v => v
        end]> dish in
  let dish :=
    <["price" :=
        if truthy (prop dish "price") && typeof_object (prop dish "price")
        then prop dish "price"
        else
          JObj (<["final" := JNum (parseFloat (js_or (prop dish "price") (JNum (num_of_Z 0))))]>
                (<["restaurantPrice" :=
                     JNum (parseFloat (js_or (prop dish "price") (JNum (num_of_Z 0))))]>
                 (<["adminFee" := JNum (num_of_Z 0)]> ∅)))]> dish in
  let finalPriceBeforeDiscount :=
    parseFloat (js_or (get (prop dish "price") "final") (JNum (num_of_Z 0))) in
  let dish :=
    <["customerPrice" :=
        JNum (num_mul finalPriceBeforeDiscount
                (num_sub (num_of_Z 1)
                   (js_div (prop dish "discount") (JNum (num_of_Z 100)))))]> dish in
  let dish :=
    <["images" :=
        if nonempty_array (prop dish "images") then prop dish "images"
        else JArr [js_or (prop dish "imageUrl") default_image]]> dish in
  dish.

(** [userPincode && dish.pincode !== 'ALL' && dish.pincode !== userPincode]:
    the dish is skipped. *)
Definition skipped (userPincode : option string) (dish : obj) : bool :=
  match userPincode with
  | None => false
  | Some pin =>
      negb (String.eqb pin "")
      && negb (strict_eq_str (prop dish "pincode") "ALL")
      && negb (strict_eq_str (prop dish "pincode") pin)
  end.

(** The mapping of the [catch] branch of [fetchDishes].  [d.price.final]
    raises a [TypeError] when [d.price] is [undefined] or [null]. *)
Definition placeholder_dish (d : obj) : result obj :=
  match prop d "price" with
  | JUndefined | JNull => Throw (JStr "TypeError")
  | price =>
      Ok (<["images" :=
              if nonempty_array (prop d "images") then prop d "images"
              else JArr [js_or (prop d "imageUrl") default_image]]>
          (<["customerPrice" :=
               JNum (num_mul (ToNumber (get price "final"))
                       (num_sub (num_of_Z 1)
                          (js_div (js_or (prop d "discount") (JNum (num_of_Z 0)))
                                  (JNum (num_of_Z 100)))))]> d))
  end.

(** [array.map(f)] for a callback that may throw: the first exception
    aborts the traversal. *)
Fixpoint map_result {A B : Type} (f : A → result B) (l : list A) : result (list B) :=
  match l with
  | [] => Ok []
  | x :: l' =>
      match f x with
      | Throw e => Throw e
      | Ok y =>
          match map_result f l' with
          | Throw e => Throw e
          | Ok ys => Ok (y :: ys)
          end
      end
  end.

Definition fetchDishes (read : result children) (userPincode : option string)
    : result (list obj) :=
  match read with
  | Ok snapshot =>
      Ok (forEach snapshot
            (λ dishesData '(key, val),
               let dish := normalize_dish key val in
               if skipped userPincode dish then dishesData
               else push dishesData dish)
            [])
  | Throw error => map_result placeholder_dish PLACEHOLDER_DISHES
  end.

(** *** Banners *)

Definition fetchBanners (read : result children) : list SliderImage :=
  match read with
  | Ok snapshot =>
      let sliderImages :=
        forEach snapshot
          (λ sliderImages '(key, banner),
             if truthy (get banner "imageUrl")
             then push sliderImages
                    {| downloadURL := get banner "imageUrl";
                       title := get banner "title" |}
             else sliderImages)
          [] in
      if bool_decide (0 < length sliderImages) then sliderImages
      else PLACEHOLDER_SLIDER_IMAGES
  | Throw error => PLACEHOLDER_SLIDER_IMAGES
  end.

(** *** Orders *)

(** [const order = { k: childSnap.key || '', ...val, customerStatus }] with
    [customerStatus = CUSTOMER_STATUS_MAP[val.status] || 'Processing']. *)
Definition make_order (key : string) (val : JsVal) : obj :=
  let customerStatus :=
    js_or (prop CUSTOMER_STATUS_MAP (ToString (get val "status")))
          (JStr "Processing") in
  <["customerStatus" := customerStatus]>
    (spread val ∪ {["k" := JStr (key_or_empty key)]}).

(** [order.customerStatus === 'On Way' && order.dboyId] *)
Definition on_way_with_driver (order : obj) : bool :=
  strict_eq_str (prop order "customerStatus") "On Way"
  && truthy (prop order "dboyId").

(** [order.dboyId] as a property name of [dpCache] and as the last segment
    of the path [delivery_partners/${order.dboyId}]. *)
Definition driver_key (order : obj) : string := ToString (prop order "dboyId").

(** The local variables of the listener callback.  A pending promise of
    [dpPromises] is represented by the driver id whose record it reads: its
    creation is the backend lookup, its callbacks write [dpCache] at that
    id. *)
Record listener := {
  userOrders : list obj;
  dpPromises : list string;
  dpCache : obj
}.

Definition listener_init : listener :=
  {| userOrders := []; dpPromises := []; dpCache := ∅ |}.

(** The [forEach] callback of the listener.  It runs to completion for each
    child before any promise callback can run, so it reads [dpCache] and
    never writes it. *)
Definition visit_order (uid : string) (st : listener) (child : string * JsVal)
    : listener :=
  let '(key, val) := child in
  if strict_eq_str (get val "userId") uid then
    let order := make_order key val in
    let promises :=
      if on_way_with_driver order
         && negb (truthy (prop (dpCache st) (driver_key order)))
      then push (dpPromises st) (driver_key order)
      else dpPromises st in
    {| userOrders := push (userOrders st) order;
       dpPromises := promises;
       dpCache := dpCache st |}
  else st.

Definition default_driver_image : JsVal :=
  JStr "https://cdn-icons-png.flaticon.com/512/4140/4140037.png".

(** What the [then]/[catch] callbacks of a lookup store in [dpCache]. *)
Definition driver_entry (response : result JsVal) : JsVal :=
  match response with
  | Ok dpData =>
      if truthy dpData then
        JObj (<["name" := get dpData "name"]>
              (<["mobile" := get dpData "mobile"]>
               (<["imageUrl" :=
                    js_or (get dpData "profileImageUrl") default_driver_image]> ∅)))
      else SIMULATED_DRIVER
  | Throw e => SIMULATED_DRIVER
  end.

(** The settlement of the [i]-th promise: its callback writes the cache. *)
Definition settle (responses : nat → result JsVal) (st : listener) (i : nat)
    : listener :=
  match dpPromises st !! i with
  | Some id =>
      {| userOrders := userOrders st;
         dpPromises := dpPromises st;
         dpCache := <[id := driver_entry (responses i)]> (dpCache st) |}
  | None => st
  end.

(** The callback of [userOrders.map]. *)
Definition attach_driver (cache : obj) (order : obj) : obj :=
  if on_way_with_driver order
  then <["driverDetails" := prop cache (driver_key order)]> order
  else order.

(** [(a, b) => b.timestamp - a.timestamp] *)
Definition newest_first (a b : obj) : number :=
  js_sub (prop b "timestamp") (prop a "timestamp").

(** [Array.prototype.sort(comparator)]: [a] is moved behind [b] when the
    comparator is positive on [(a, b)]; [NaN] counts as [0].  The sort is
    stable; it is written here as an insertion sort. *)
Definition sorts_after {A : Type} (comparator : A → A → number) (a b : A) : bool :=
  match comparator a b with
  | Fin q => match (0 ?= q)%Qc with Lt => true | _ => false end
  | NaN => false
  end.

Fixpoint sort_insert {A : Type} (comparator : A → A → number) (x : A) (l : list A)
    : list A :=
  match l with
  | [] => [x]
  | y :: l' =>
      if sorts_after comparator x y then y :: sort_insert comparator x l'
      else x :: l
  end.

Definition array_sort {A : Type} (comparator : A → A → number) (l : list A)
    : list A :=
  foldr (sort_insert comparator) [] l.

(** What one notification of the order stream does: the list handed to
    [callback], and the driver lookups sent to the backend. *)
Record batch := {
  delivered : list obj;
  lookups : list string
}.

(** The [onValue] callback of [listenForUserOrders] on one snapshot.
    [responses i] is the settlement of the [i]-th lookup and [completion]
    the order in which the lookups settle. *)
Definition listenForUserOrders (uid : string) (snapshot : children)
    (responses : nat → result JsVal) (completion : list nat) : batch :=
  let st := forEach snapshot (visit_order uid) listener_init in
  let st' := foldl (settle responses) st completion in
  let ordersWithDriverDetails := map (attach_driver (dpCache st')) (userOrders st') in
  {| delivered := array_sort newest_first ordersWithDriverDetails;
     lookups := dpPromises st |}.

(** *** User profile *)

(** [fetchUserData]: the read is not guarded, so a rejected read rejects
    the call. *)
Definition fetchUserData (uid : string) (read : result JsVal)
    : result (option UserData) :=
  match read with
  | Throw e => Throw e
  | Ok data =>
      if snapshot_exists data then
        Ok (Some
              {| uid := uid;
                 name := js_or (get data "name") (JStr "User Name");
                 email := js_or (get data "email") JNull;
                 mobile := js_or (get data "mobile") (JStr "");
                 pincode := js_or (get data "pincode") (JStr "");
                 address :=
                   {| state := js_or (get_opt (get data "address") "state") (JStr "");
                      district :=
                        js_or (get_opt (get data "address") "district") (JStr "");
                      line := js_or (get_opt (get data "address") "line") (JStr "") |};
                 profileImageUrl := js_or (get data "profileImageUrl") JUndefined;
                 createdAt := js_or (get data "createdAt") JUndefined |})
      else Ok None
  end.

(** *** Wishlist *)

(** The [onValue] callback of [listenForWishlistUpdates]: the list handed to
    [callback].  [None] is a snapshot that does not exist. *)
Definition listenForWishlistUpdates (snapshot : option children) : list string :=
  match snapshot with
  | Some kids =>
      forEach kids
        (λ wishlistKeys '(key, val), push wishlistKeys (key_or_empty key))
        []
  | None => []
  end.

(** [fetchWishlistItems]: unguarded, like [fetchUserData]. *)
Definition fetchWishlistItems (read : result (option children))
    : result (list JsVal) :=
  match read with
  | Throw e => Throw e
  | Ok (Some kids) =>
      Ok (forEach kids (λ items '(key, val), push items val) [])
  | Ok None => Ok []
  end.

(** *** Views used to state the properties of the listener *)

(** The order the [forEach] callback pushes for a child, if any. *)
Definition user_order (uid : string) (child : string * JsVal) : option obj :=
  if strict_eq_str (get child.2 "userId") uid
  then Some (make_order child.1 child.2)
  else None.

(** The driver id an order needs a record for, if any. *)
Definition driver_needed (order : obj) : option string :=
  if on_way_with_driver order then Some (driver_key order) else None.

(** The number of lookups a batch sends for one driver id. *)
Definition lookups_for (id : string) (b : batch) : nat :=
  length (filter (λ id', id' = id) (lookups b)).

(** A response that makes the callbacks store the placeholder: the read is
    rejected, or it is fulfilled with no data. *)
Definition lookup_failed (response : result JsVal) : Prop :=
  match response with
  | Throw e => True
  | Ok dpData => truthy dpData = false
  end.

(** [a] is not older than [b], both carrying a numeric timestamp. *)
Definition not_older (a b : obj) : Prop :=
  ∃ ta tb : Qc,
    prop a "timestamp" = JNum (Fin ta)
    ∧ prop b "timestamp" = JNum (Fin tb)
    ∧ (tb ≤ ta)%Qc.

(** ** Properties *)

(** *** Reading fields of a record under construction *)

Lemma prop_insert_eq (o : obj) (k : string) (v : JsVal) :
  prop (<[k := v]> o) k = v.
Proof. unfold prop. by rewrite lookup_insert_eq. Qed.

Lemma prop_insert_ne (o : obj) (k k' : string) (v : JsVal) :
  k ≠ k' → prop (<[k := v]> o) k' = prop o k'.
Proof. intros Hk. unfold prop. by rewrite lookup_insert_ne. Qed.

Lemma prop_spread_ne (val : JsVal) (k k' : string) (v : JsVal) :
  k ≠ k' → prop (spread val ∪ {[k := v]}) k' = prop (spread val) k'.
Proof.
  intros Hk. unfold prop. rewrite lookup_union.
  rewrite lookup_singleton_ne by done.
  by destruct (spread val !! k').
Qed.

Lemma prop_spread_obj (o : obj) (k : string) : prop (spread (JObj o)) k = get (JObj o) k.
Proof. reflexivity. Qed.

(** Rewrites a field read through the assignments that follow it. *)
Ltac read_field :=
  repeat first
    [ rewrite prop_insert_eq
    | rewrite prop_insert_ne by done
    | rewrite prop_spread_ne by done ].

(** *** [forEach] with [push] *)

Lemma forEach_push_omap {A : Type} (f : string * JsVal → option A)
    (snapshot : children) (acc : list A) :
  forEach snapshot
    (λ acc child, match f child with Some x => push acc x | None => acc end) acc
  = acc ++ omap f snapshot.
Proof.
  unfold forEach. revert acc.
  induction snapshot as [|child snapshot IH]; intros acc; simpl.
  - by rewrite app_nil_r.
  - rewrite IH. destruct (f child); simpl; [|done].
    unfold push. by rewrite <- app_assoc.
Qed.

Lemma forEach_ext {S : Type} (f g : S → string * JsVal → S)
    (snapshot : children) (init : S) :
  (∀ st child, f st child = g st child) →
  forEach snapshot f init = forEach snapshot g init.
Proof.
  intros Hfg. unfold forEach. revert init.
  induction snapshot as [|child snapshot IH]; intros init; simpl; [done|].
  by rewrite Hfg, IH.
Qed.

(** *** The normalised dish *)

Lemma normalize_dish_pincode (key : string) (val : JsVal) :
  prop (normalize_dish key val) "pincode"
  = JStr (ToString (js_or (prop (spread val) "pincode") (JStr "ALL"))).
Proof. unfold normalize_dish. cbv zeta. by read_field. Qed.

Lemma normalize_dish_discount (key : string) (val : JsVal) :
  prop (normalize_dish key val) "discount"
  = js_or (prop (spread val) "discount") (JNum (num_of_Z 0)).
Proof. unfold normalize_dish. cbv zeta. by read_field. Qed.

Lemma normalize_dish_price (key : string) (val : JsVal) :
  prop (normalize_dish key val) "price"
  = if truthy (prop (spread val) "price") && typeof_object (prop (spread val) "price")
    then prop (spread val) "price"
    else
      JObj (<["final" :=
                JNum (parseFloat (js_or (prop (spread val) "price") (JNum (num_of_Z 0))))]>
            (<["restaurantPrice" :=
                 JNum (parseFloat (js_or (prop (spread val) "price") (JNum (num_of_Z 0))))]>
             (<["adminFee" := JNum (num_of_Z 0)]> ∅))).
Proof. unfold normalize_dish. cbv zeta. by read_field. Qed.

Lemma normalize_dish_customerPrice (key : string) (val : JsVal) :
  prop (normalize_dish key val) "customerPrice"
  = JNum (num_mul
            (parseFloat (js_or (get (prop (normalize_dish key val) "price") "final")
                               (JNum (num_of_Z 0))))
            (num_sub (num_of_Z 1)
               (js_div (prop (normalize_dish key val) "discount")
                       (JNum (num_of_Z 100))))).
Proof.
  rewrite normalize_dish_price, normalize_dish_discount.
  unfold normalize_dish. cbv zeta. by read_field.
Qed.

(** A stored number is used as the price as it is: [final || 0] and
    [parseFloat] leave it unchanged. *)
Lemma parseFloat_or_zero (q : Qc) :
  parseFloat (js_or (JNum (Fin q)) (JNum (num_of_Z 0))) = Fin q.
Proof.
  unfold js_or. simpl.
  destruct (Qc_eq_bool q 0) eqn:Hq; simpl; [|done].
  apply Qc_eq_bool_correct in Hq. subst q.
  unfold num_of_Z. f_equal. by apply Qc_is_canon.
Qed.

(** The pincode of the returned record, from the stored one: a stored
    non-empty string is kept, an absent pincode becomes ["ALL"]. *)
Lemma normalize_dish_pincode_stored (key : string) (fields : obj) :
  prop (normalize_dish key (JObj fields)) "pincode"
  = match fields !! "pincode" with
    | None => JStr "ALL"
    | Some (JStr p) => JStr (if String.eqb p "" then "ALL" else p)
    | Some v => JStr (ToString (js_or v (JStr "ALL")))
    end.
Proof.
  rewrite normalize_dish_pincode. unfold prop. simpl.
  destruct (fields !! "pincode") as [v|]; [|done].
  destruct v as [| | | |p| |]; try done.
  unfold js_or. simpl. by destruct (String.eqb p "").
Qed.

(** A structured price without a usable [final] is priced from [0]. *)
Lemma customerPrice_falsy_final (key : string) (val : JsVal) (price : obj) :
  get val "price" = JObj price →
  truthy (prop price "final") = false →
  prop (normalize_dish key val) "customerPrice"
  = JNum (num_mul (num_of_Z 0)
            (num_sub (num_of_Z 1)
               (js_div (prop (normalize_dish key val) "discount")
                       (JNum (num_of_Z 100))))).
Proof.
  intros Hprice Hfinal.
  destruct val as [| | | | | |fields]; try discriminate Hprice.
  rewrite normalize_dish_customerPrice, normalize_dish_price, prop_spread_obj.
  rewrite Hprice. simpl. unfold js_or. by rewrite Hfinal.
Qed.

(** *** What [fetchDishes] returns on a successful read *)

Lemma fetchDishes_ok (snapshot : children) (userPincode : option string) :
  fetchDishes (Ok snapshot) userPincode
  = Ok (omap (λ child : string * JsVal,
                let dish := normalize_dish child.1 child.2 in
                if skipped userPincode dish then None else Some dish)
             snapshot).
Proof.
  unfold fetchDishes. f_equal.
  rewrite <- (app_nil_l (omap _ _)), <- forEach_push_omap.
  apply forEach_ext. intros st [key val]; simpl.
  by destruct (skipped _ _).
Qed.

Lemma skipped_spec (pin : string) (dish : obj) :
  pin ≠ "" →
  (∃ p, prop dish "pincode" = JStr p) →
  skipped (Some pin) dish = false
  ↔ prop dish "pincode" = JStr "ALL" ∨ prop dish "pincode" = JStr pin.
Proof.
  intros Hpin [p Hp]. unfold skipped. rewrite Hp. simpl.
  apply String.eqb_neq in Hpin. rewrite Hpin. simpl.
  destruct (String.eqb_spec p "ALL") as [->|Hall]; simpl.
  { split; auto. }
  destruct (String.eqb_spec p pin) as [->|Hne]; simpl.
  { split; auto. }
  split; [done|]. intros [[=]|[=]]; congruence.
Qed.

(** *** Catalog claims *)




(** The record the [catch] branch of [fetchDishes] builds from a placeholder:
    the placeholder with [customerPrice] and [images] recomputed. *)
Lemma placeholder_dish_ok (d : obj) :
  prop d "price" ≠ JUndefined → prop d "price" ≠ JNull →
  placeholder_dish d
  = Ok (<["images" :=
            if nonempty_array (prop d "images") then prop d "images"
            else JArr [js_or (prop d "imageUrl") default_image]]>
        (<["customerPrice" :=
             JNum (js_mul (get (prop d "price") "final")
                     (JNum (num_sub (num_of_Z 1)
                              (js_div (js_or (prop d "discount") (JNum (num_of_Z 0)))
                                      (JNum (num_of_Z 100))))))]> d)).
Proof.
  intros Hu Hn. unfold placeholder_dish.
  by destruct (prop d "price").
Qed.

Lemma map_result_ok {A B : Type} (f : A → result B) (g : A → B) (l : list A) :
  Forall (λ x, f x = Ok (g x)) l → map_result f l = Ok (map g l).
Proof.
  induction 1 as [|x l Hx _ IH]; simpl; [done|].
  by rewrite Hx, IH.
Qed.


Lemma fetchBanners_no_image (snapshot : children) :
  Forall (λ child : string * JsVal, truthy (get child.2 "imageUrl") = false)
         snapshot →
  fetchBanners (Ok snapshot) = PLACEHOLDER_SLIDER_IMAGES.
Proof.
  intros Hall. unfold fetchBanners.
  assert (Hnone : ∀ acc : list SliderImage,
    forEach snapshot
      (λ sliderImages '(_, banner),
         if truthy (get banner "imageUrl")
         then push sliderImages
                {| downloadURL := get banner "imageUrl";
                   title := get banner "title" |}
         else sliderImages) acc = acc).
  { unfold forEach. induction Hall as [|[key banner] l Hx _ IH]; intros acc;
      simpl in *; [done|]. by rewrite Hx, IH. }
  by rewrite Hnone.
Qed.

(** C8.  A read that succeeds with no category, or with no banner carrying
    an image URL, returns the same placeholder as a rejected read. *)
Theorem empty_read_is_like_rejected_read (snapshot : children) (e : JsVal) :
  Forall (λ child : string * JsVal, truthy (get child.2 "imageUrl") = false)
         snapshot →
  fetchCategories (Ok []) = PLACEHOLDER_CATEGORIES
  ∧ fetchCategories (Ok []) = fetchCategories (Throw e)
  ∧ fetchBanners (Ok snapshot) = PLACEHOLDER_SLIDER_IMAGES
  ∧ fetchBanners (Ok snapshot) = fetchBanners (Throw e).
Proof.
  intros Hall. repeat split; by apply fetchBanners_no_image.
Qed.

(** C10.  [saveNewUserData] writes at [users/{uid}] the caller's record with
    [createdAt] set to the current time, whatever [createdAt] the caller
    supplied; every other field is the caller's. *)
Theorem saveNewUserData_createdAt (uid : string) (data : obj) (now : string)
    (db : database) (k : string) :
  k ≠ "createdAt" →
  ∃ record,
    saveNewUserData uid data now db !! ("users/" +:+ uid) = Some (JObj record)
    ∧ record !! "createdAt" = Some (JStr now)
    ∧ record !! k = data !! k.
Proof.
  intros Hk. eexists. unfold saveNewUserData, db_set.
  rewrite lookup_insert_eq. split; [done|].
  rewrite lookup_insert_eq, lookup_insert_ne by done. done.
Qed.

(** *** The listener, phase by phase *)

Lemma omap_cons_Some {A B : Type} (f : A → option B) (x : A) (l : list A) (y : B) :
  f x = Some y → omap f (x :: l) = y :: omap f l.
Proof. intros Hx. change (omap f (x :: l)) with
  (match f x with Some y => y :: omap f l | None => omap f l end). by rewrite Hx. Qed.

Lemma omap_cons_None {A B : Type} (f : A → option B) (x : A) (l : list A) :
  f x = None → omap f (x :: l) = omap f l.
Proof. intros Hx. change (omap f (x :: l)) with
  (match f x with Some y => y :: omap f l | None => omap f l end). by rewrite Hx. Qed.

(** One step of the traversal, while the cache is empty. *)
Lemma visit_order_empty_cache (uid : string) (st : listener)
    (child : string * JsVal) :
  dpCache st = ∅ →
  visit_order uid st child
  = match user_order uid child with
    | Some order =>
        {| userOrders := userOrders st ++ [order];
           dpPromises :=
             match driver_needed order with
             | Some id => dpPromises st ++ [id]
             | None => dpPromises st
             end;
           dpCache := ∅ |}
    | None => st
    end.
Proof.
  destruct st as [orders promises cache], child as [key val]. simpl. intros ->.
  unfold user_order, driver_needed. cbn [fst snd].
  destruct (strict_eq_str (get val "userId") uid); [|done].
  unfold prop at 1. rewrite lookup_empty. simpl. rewrite andb_true_r.
  by destruct (on_way_with_driver (make_order key val)).
Qed.

(** The traversal of the snapshot: every order of the user is pushed, one
    promise is pushed for every order that needs a driver, and the cache is
    still empty when it ends. *)
Lemma visit_orders (uid : string) (snapshot : children) (st : listener) :
  dpCache st = ∅ →
  forEach snapshot (visit_order uid) st
  = {| userOrders := userOrders st ++ omap (user_order uid) snapshot;
       dpPromises :=
         dpPromises st ++ omap driver_needed (omap (user_order uid) snapshot);
       dpCache := ∅ |}.
Proof.
  unfold forEach. revert st.
  induction snapshot as [|child snapshot IH]; intros st Hcache.
  { destruct st; simpl in *. by rewrite !app_nil_r, Hcache. }
  cbn [foldl]. rewrite visit_order_empty_cache by done.
  destruct (user_order uid child) as [order|] eqn:Horder.
  - rewrite IH by done. cbn [userOrders dpPromises].
    rewrite (omap_cons_Some _ _ _ _ Horder).
    destruct (driver_needed order) as [id|] eqn:Hid.
    + rewrite (omap_cons_Some _ _ _ _ Hid). by rewrite <- !app_assoc.
    + rewrite (omap_cons_None _ _ _ Hid). by rewrite <- !app_assoc.
  - rewrite IH by done. by rewrite (omap_cons_None _ _ _ Horder).
Qed.

Lemma visit_orders_init (uid : string) (snapshot : children) :
  forEach snapshot (visit_order uid) listener_init
  = {| userOrders := omap (user_order uid) snapshot;
       dpPromises := omap driver_needed (omap (user_order uid) snapshot);
       dpCache := ∅ |}.
Proof. by rewrite visit_orders. Qed.

(** The settlements change the cache only. *)
Lemma settle_all_orders (responses : nat → result JsVal) (completion : list nat)
    (st : listener) :
  userOrders (foldl (settle responses) st completion) = userOrders st
  ∧ dpPromises (foldl (settle responses) st completion) = dpPromises st.
Proof.
  revert st. induction completion as [|i completion IH]; intros st; simpl; [done|].
  destruct (IH (settle responses st i)) as [-> ->].
  unfold settle. by destruct (dpPromises st !! i).
Qed.

(** Once every lookup sent for [id] has settled, and each of them makes the
    callbacks store [v], the cache holds [v] at [id]. *)
Lemma settle_all_cache (responses : nat → result JsVal) (completion : list nat)
    (st : listener) (id : string) (v : JsVal) :
  (∀ i, dpPromises st !! i = Some id → driver_entry (responses i) = v) →
  (∃ i, i ∈ completion ∧ dpPromises st !! i = Some id) →
  dpCache (foldl (settle responses) st completion) !! id = Some v.
Proof.
  intros Hv. induction completion as [|j completion IH] using rev_ind.
  { intros (i & Hi & _). by apply elem_of_nil in Hi. }
  intros (i & Hi & Hid). rewrite foldl_snoc.
  destruct (settle_all_orders responses completion st) as [_ Hpromises].
  revert IH Hpromises. generalize (foldl (settle responses) st completion).
  intros st' IH Hpromises. unfold settle. rewrite Hpromises.
  destruct (dpPromises st !! j) as [id'|] eqn:Hj; simpl.
  - destruct (decide (id' = id)) as [->|Hne].
    + rewrite lookup_insert_eq. f_equal. by apply Hv.
    + rewrite lookup_insert_ne by done. apply IH. exists i. split; [|done].
      apply elem_of_app in Hi as [Hi|Hi]; [done|].
      apply list_elem_of_singleton in Hi. congruence.
  - apply IH. exists i. split; [|done].
    apply elem_of_app in Hi as [Hi|Hi]; [done|].
    apply list_elem_of_singleton in Hi. congruence.
Qed.

(** *** [Array.prototype.sort] *)

Lemma sort_insert_perm {A : Type} (comparator : A → A → number) (x : A)
    (l : list A) :
  sort_insert comparator x l ≡ₚ x :: l.
Proof.
  induction l as [|y l IH]; simpl; [done|].
  destruct (sorts_after comparator x y); [|done].
  rewrite IH. apply Permutation_swap.
Qed.

Lemma array_sort_perm {A : Type} (comparator : A → A → number) (l : list A) :
  array_sort comparator l ≡ₚ l.
Proof.
  unfold array_sort. induction l as [|x l IH]; simpl; [done|].
  by rewrite sort_insert_perm, IH.
Qed.

(** On two numeric timestamps the comparator is positive exactly when its
    first argument is the older one. *)
Lemma sorts_after_newest_first (a b : obj) (ta tb : Qc) :
  prop a "timestamp" = JNum (Fin ta) →
  prop b "timestamp" = JNum (Fin tb) →
  sorts_after newest_first a b = true ↔ (ta < tb)%Qc.
Proof.
  intros Ha Hb. unfold sorts_after, newest_first, Js.js_sub. rewrite Ha, Hb.
  simpl. rewrite Qclt_minus_iff, Qclt_alt. unfold Qcminus.
  by destruct (0 ?= tb + - ta)%Qc.
Qed.

Lemma not_older_trans (a b c : obj) : not_older a b → not_older b c → not_older a c.
Proof.
  intros (ta & tb & Ha & Hb & Hab) (tb' & tc & Hb' & Hc & Hbc).
  rewrite Hb in Hb'. injection Hb' as <-.
  exists ta, tc. repeat split; [done..|]. by eapply Qcle_trans.
Qed.

Lemma sort_insert_sorted (x : obj) (l : list obj) :
  Forall (λ o, ∃ t, prop o "timestamp" = JNum (Fin t)) (x :: l) →
  StronglySorted not_older l →
  StronglySorted not_older (sort_insert newest_first x l).
Proof.
  intros Hnum Hsorted. apply Forall_cons in Hnum as [[tx Hx] Hnum].
  induction Hsorted as [|y l Hsorted IH Hy]; simpl.
  { by repeat constructor. }
  apply Forall_cons in Hnum as [[ty Hty] Hnum].
  destruct (sorts_after newest_first x y) eqn:Hcmp.
  - apply (sorts_after_newest_first x y tx ty) in Hcmp; [|done..].
    constructor; [by apply IH|].
    rewrite sort_insert_perm. constructor; [|done].
    exists ty, tx. repeat split; [done..|]. by apply Qclt_le_weak.
  - assert (Hxy : not_older x y).
    { exists tx, ty. repeat split; [done..|]. apply Qcnot_lt_le.
      intros Hlt. apply (sorts_after_newest_first x y tx ty) in Hlt; [|done..].
      congruence. }
    constructor; [by constructor|]. constructor; [done|].
    eapply Forall_impl; [exact Hy|]. intros z Hz. by eapply not_older_trans.
Qed.

Lemma array_sort_sorted (l : list obj) :
  Forall (λ o, ∃ t, prop o "timestamp" = JNum (Fin t)) l →
  StronglySorted not_older (array_sort newest_first l).
Proof.
  unfold array_sort. induction 1 as [|x l Hx Hl IH]; simpl; [constructor|].
  apply sort_insert_sorted; [|done].
  constructor; [done|]. fold (array_sort newest_first l).
  by rewrite array_sort_perm.
Qed.

(** *** Order claims *)

(** The lookups of a batch: one for every order of the user that needs a
    driver, in the order of the snapshot.  The cache is empty while the
    snapshot is traversed, so a driver id met again is looked up again. *)
Lemma lookups_per_order (uid : string) (snapshot : children)
    (responses : nat → result JsVal) (completion : list nat) :
  lookups (listenForUserOrders uid snapshot responses completion)
  = omap driver_needed (omap (user_order uid) snapshot).
Proof. unfold listenForUserOrders. cbn [lookups]. by rewrite visit_orders_init. Qed.

Lemma length_filter_omap {A B : Type} `{EqDecision B} (f : A → option B)
    (y : B) (l : list A) :
  length (filter (λ y', y' = y) (omap f l))
  = length (filter (λ x, f x = Some y) l).
Proof.
  induction l as [|x l IH]; [done|].
  destruct (f x) as [y'|] eqn:Hx.
  - rewrite (omap_cons_Some _ _ _ _ Hx), !filter_cons, Hx.
    destruct (decide (y' = y)) as [->|Hne].
    + rewrite decide_True by done. simpl. by rewrite IH.
    + rewrite decide_False by congruence. done.
  - rewrite (omap_cons_None _ _ _ Hx), filter_cons, Hx.
    rewrite decide_False by done. done.
Qed.

(** The lookups sent for a driver id are as many as the orders of the user
    that need this driver. *)
Lemma lookups_for_counts_orders (uid : string) (snapshot : children)
    (responses : nat → result JsVal) (completion : list nat) (id : string) :
  lookups_for id (listenForUserOrders uid snapshot responses completion)
  = length (filter (λ order, driver_needed order = Some id)
                   (omap (user_order uid) snapshot)).
Proof. unfold lookups_for. rewrite lookups_per_order. apply length_filter_omap. Qed.

(** The delivered list is a rearrangement of the user's orders, each with
    the driver record found in the cache after all lookups have settled. *)
Lemma delivered_perm (uid : string) (snapshot : children)
    (responses : nat → result JsVal) (completion : list nat) :
  delivered (listenForUserOrders uid snapshot responses completion)
  ≡ₚ map (attach_driver
            (dpCache (foldl (settle responses)
                        (forEach snapshot (visit_order uid) listener_init)
                        completion)))
         (omap (user_order uid) snapshot).
Proof.
  unfold listenForUserOrders. cbn [delivered]. rewrite array_sort_perm.
  destruct (settle_all_orders responses completion
              (forEach snapshot (visit_order uid) listener_init)) as [-> _].
  by rewrite visit_orders_init at 2.
Qed.

Lemma user_order_Some (uid key : string) (val : JsVal) :
  strict_eq_str (get val "userId") uid = true →
  user_order uid (key, val) = Some (make_order key val).
Proof. intros Huid. unfold user_order. cbn [fst snd]. by rewrite Huid. Qed.

Lemma user_order_inv (uid : string) (child : string * JsVal) (order : obj) :
  user_order uid child = Some order →
  ∃ fields, child.2 = JObj fields
    ∧ strict_eq_str (get child.2 "userId") uid = true
    ∧ order = make_order child.1 child.2.
Proof.
  unfold user_order.
  destruct (strict_eq_str (get child.2 "userId") uid) eqn:Huid; [|done].
  intros [= <-]. destruct child as [key val]; cbn [fst snd] in *.
  destruct val; try discriminate Huid. eauto.
Qed.

Lemma make_order_customerStatus (key : string) (val : JsVal) :
  prop (make_order key val) "customerStatus"
  = js_or (prop CUSTOMER_STATUS_MAP (ToString (get val "status")))
          (JStr "Processing").
Proof. unfold make_order. by read_field. Qed.

Lemma make_order_timestamp (key : string) (fields : obj) :
  prop (make_order key (JObj fields)) "timestamp" = get (JObj fields) "timestamp".
Proof. unfold make_order. by read_field. Qed.

Lemma attach_driver_timestamp (cache order : obj) :
  prop (attach_driver cache order) "timestamp" = prop order "timestamp".
Proof. unfold attach_driver. destruct (on_way_with_driver order); by read_field. Qed.




(** ** Further properties of the catalog *)

Lemma key_or_empty_id (key : string) : key_or_empty key = key.
Proof. unfold key_or_empty. by destruct (String.eqb_spec key "") as [->|]. Qed.

Lemma truthy_js_or (a d : JsVal) : truthy d = true → truthy (js_or a d) = true.
Proof. intros Hd. unfold js_or. by destruct (truthy a) eqn:Ha. Qed.

Lemma prop_spread_default (fields : obj) (k : string) (v : JsVal) :
  prop (spread (JObj fields) ∪ {[k := v]}) k = default v (fields !! k).
Proof.
  unfold prop. simpl. rewrite lookup_union, lookup_singleton_eq.
  by destruct (fields !! k).
Qed.

Lemma normalize_dish_categoryId (key : string) (val : JsVal) :
  prop (normalize_dish key val) "categoryId"
  = JStr (ToString (js_or (prop (spread val) "categoryId") (JStr "uncategorized"))).
Proof. unfold normalize_dish. cbv zeta. by read_field. Qed.

Lemma normalize_dish_unit (key : string) (val : JsVal) :
  prop (normalize_dish key val) "unit"
  = js_or (prop (spread val) "unit") (JStr "Unit N/A").
Proof. unfold normalize_dish. cbv zeta. by read_field. Qed.

Lemma normalize_dish_description (key : string) (val : JsVal) :
  prop (normalize_dish key val) "description"
  = js_or (prop (spread val) "description") (JStr "No description available.").
Proof. unfold normalize_dish. cbv zeta. by read_field. Qed.

Lemma normalize_dish_isInStock (key : string) (val : JsVal) :
  prop (normalize_dish key val) "isInStock"
  = match prop (spread val) "isInStock" with
    | JUndefined => JBool true
    | v => v
    end.
Proof. unfold normalize_dish. cbv zeta. by read_field. Qed.

Lemma normalize_dish_images (key : string) (val : JsVal) :
  prop (normalize_dish key val) "images"
  = if nonempty_array (prop (spread val) "images") then prop (spread val) "images"
    else JArr [js_or (prop (spread val) "imageUrl") default_image].
Proof. unfold normalize_dish. cbv zeta. by read_field. Qed.

Lemma normalize_dish_key (key : string) (fields : obj) :
  prop (normalize_dish key (JObj fields)) "key" = default (JStr key) (fields !! "key").
Proof.
  unfold normalize_dish. cbv zeta. read_field.
  by rewrite prop_spread_default, key_or_empty_id.
Qed.

(** The dishes of a successful read, as members of the snapshot. *)
Lemma fetchDishes_elem (snapshot : children) (userPincode : option string)
    (dishes : list obj) (dish : obj) :
  fetchDishes (Ok snapshot) userPincode = Ok dishes →
  dish ∈ dishes
  ↔ ∃ key val, (key, val) ∈ snapshot ∧ dish = normalize_dish key val
               ∧ skipped userPincode dish = false.
Proof.
  rewrite fetchDishes_ok. intros [= <-]. rewrite list_elem_of_omap. split.
  - intros ([key val] & Hin & Hsome). cbn [fst snd] in Hsome.
    destruct (skipped userPincode (normalize_dish key val)) eqn:Hs; [done|].
    injection Hsome as <-. eauto.
  - intros (key & val & Hin & -> & Hs). exists (key, val). split; [done|].
    cbn [fst snd]. by rewrite Hs.
Qed.



(** X3.  A scalar price that does not parse is shown as [NaN] in
    [price.final], while the customer price is computed from [0]. *)
Theorem unparsable_price_counts_as_zero (key : string) (val : JsVal) (s : string) :
  get val "price" = JStr s →
  s ≠ "" →
  parseFloatString s = NaN →
  get (prop (normalize_dish key val) "price") "final" = JNum NaN
  ∧ prop (normalize_dish key val) "customerPrice"
    = JNum (num_mul (num_of_Z 0)
              (num_sub (num_of_Z 1)
                 (js_div (prop (normalize_dish key val) "discount")
                         (JNum (num_of_Z 100))))).
Proof.
  intros Hprice Hs Hnan.
  destruct val as [| | | | | |fields]; try discriminate Hprice.
  assert (Hp : prop (normalize_dish key (JObj fields)) "price"
               = JObj (<["final" := JNum NaN]>
                       (<["restaurantPrice" := JNum NaN]>
                        (<["adminFee" := JNum (num_of_Z 0)]> ∅)))).
  { rewrite normalize_dish_price, prop_spread_obj, Hprice.
    rewrite andb_false_r. unfold js_or. simpl.
    apply String.eqb_neq in Hs. rewrite Hs. simpl. by rewrite Hnan. }
  rewrite normalize_dish_customerPrice, Hp.
  unfold get. by rewrite prop_insert_eq.
Qed.

(** *** Arithmetic of the discount *)

Lemma Qc_of_Z_0 : Qc_of_Z 0 = 0%Qc.
Proof. by apply Qc_is_canon. Qed.

Lemma Qc_of_Z_1 : Qc_of_Z 1 = 1%Qc.
Proof. by apply Qc_is_canon. Qed.

Lemma js_or_number_zero (q : Qc) :
  js_or (JNum (Fin q)) (JNum (num_of_Z 0)) = JNum (Fin q).
Proof.
  unfold js_or. simpl. destruct (Qc_eq_bool q 0) eqn:Hq; simpl; [|done].
  apply Qc_eq_bool_correct in Hq. subst q. unfold num_of_Z. by rewrite Qc_of_Z_0.
Qed.

Lemma discounted_bounds (q d : Qc) :
  (0 ≤ q)%Qc → (0 ≤ d)%Qc → (d ≤ Qc_of_Z 100)%Qc →
  (0 ≤ q * (Qc_of_Z 1 - d / Qc_of_Z 100))%Qc
  ∧ (q * (Qc_of_Z 1 - d / Qc_of_Z 100) ≤ q)%Qc.
Proof.
  intros Hq Hd0 Hd100.
  assert (Hinv : (0 ≤ / Qc_of_Z 100)%Qc) by done.
  assert (Hs0 : (0 ≤ d / Qc_of_Z 100)%Qc).
  { replace 0%Qc with (0 * / Qc_of_Z 100)%Qc by ring.
    by apply Qcmult_le_compat_r. }
  assert (Hs1 : (d / Qc_of_Z 100 ≤ 1)%Qc).
  { rewrite <- (Qcmult_inv_r (Qc_of_Z 100)) by done.
    by apply Qcmult_le_compat_r. }
  rewrite Qc_of_Z_1.
  assert (Ht0 : (0 ≤ 1 - d / Qc_of_Z 100)%Qc).
  { by apply Qcle_minus_iff in Hs1. }
  assert (Ht1 : (1 - d / Qc_of_Z 100 ≤ 1)%Qc).
  { apply Qcle_minus_iff.
    replace (1 + - (1 - d / Qc_of_Z 100))%Qc with (d / Qc_of_Z 100)%Qc by ring.
    done. }
  split.
  - replace 0%Qc with (0 * q)%Qc by ring. rewrite (Qcmult_comm q).
    by apply Qcmult_le_compat_r.
  - rewrite <- (Qcmult_1_l q) at 2. rewrite (Qcmult_comm q).
    by apply Qcmult_le_compat_r.
Qed.

Lemma discount_of_zero (q : Qc) :
  (q * (Qc_of_Z 1 - Qc_of_Z 0 / Qc_of_Z 100))%Qc = q.
Proof. rewrite Qc_of_Z_1, Qc_of_Z_0. unfold Qcdiv. ring. Qed.

(** The customer price of a dish with a numeric [price.final], in terms of
    the stored discount. *)
Lemma customerPrice_numeric_final (key : string) (val : JsVal) (q : Qc) :
  get (get val "price") "final" = JNum (Fin q) →
  prop (normalize_dish key val) "customerPrice"
  = JNum (num_mul (Fin q)
            (num_sub (num_of_Z 1)
               (js_div (js_or (get val "discount") (JNum (num_of_Z 0)))
                       (JNum (num_of_Z 100))))).
Proof.
  intros Hfinal.
  destruct val as [| | | | | |fields]; try discriminate Hfinal.
  destruct (get (JObj fields) "price") as [| | | | | |price] eqn:Hprice;
    try discriminate Hfinal.
  rewrite normalize_dish_customerPrice, normalize_dish_price, normalize_dish_discount.
  rewrite !prop_spread_obj, Hprice. simpl truthy. simpl typeof_object.
  cbn [andb]. by rewrite Hfinal, parseFloat_or_zero.
Qed.

(** X4.  With a non-negative numeric price and a numeric discount between 0
    and 100, the customer price is a number between 0 and the price. *)
Theorem customerPrice_between_zero_and_price (key : string) (val : JsVal)
    (q d : Qc) :
  get (get val "price") "final" = JNum (Fin q) →
  get val "discount" = JNum (Fin d) →
  (0 ≤ q)%Qc → (0 ≤ d)%Qc → (d ≤ Qc_of_Z 100)%Qc →
  ∃ c, prop (normalize_dish key val) "customerPrice" = JNum (Fin c)
       ∧ (0 ≤ c)%Qc ∧ (c ≤ q)%Qc.
Proof.
  intros Hfinal Hdiscount Hq Hd0 Hd100.
  rewrite (customerPrice_numeric_final _ _ _ Hfinal), Hdiscount, js_or_number_zero.
  eexists. split; [reflexivity|].
  by apply discounted_bounds.
Qed.

(** X5.  A dish stored without a discount (or with discount 0) is sold at
    its price: the customer price equals [price.final]. *)
Theorem customerPrice_without_discount (key : string) (val : JsVal) (q : Qc) :
  get (get val "price") "final" = JNum (Fin q) →
  truthy (get val "discount") = false →
  prop (normalize_dish key val) "customerPrice" = JNum (Fin q).
Proof.
  intros Hfinal Hdiscount.
  rewrite (customerPrice_numeric_final _ _ _ Hfinal).
  unfold js_or. rewrite Hdiscount. simpl. by rewrite discount_of_zero.
Qed.

(** *** Which dishes are returned *)

Lemma omap_sublist {A B : Type} (f : A → option B) (g : A → B) (l : list A) :
  (∀ x y, f x = Some y → y = g x) →
  omap f l `sublist_of` map g l.
Proof.
  intros Hfg. induction l as [|x l IH]; [done|].
  destruct (f x) as [y|] eqn:Hx.
  - rewrite (omap_cons_Some _ _ _ _ Hx). rewrite (Hfg _ _ Hx).
    by apply sublist_skip.
  - rewrite (omap_cons_None _ _ _ Hx). by apply sublist_cons.
Qed.



(** *** Keys *)

(** X8.  The database key is only a default for the [key] of a dish, the
    [id] of a category and the [k] of an order: a field of that name in the
    stored record takes precedence. *)
Theorem stored_key_field_takes_precedence (key : string) (fields : obj) :
  prop (normalize_dish key (JObj fields)) "key" = default (JStr key) (fields !! "key")
  ∧ prop (make_order key (JObj fields)) "k" = default (JStr key) (fields !! "k")
  ∧ ∃ category,
      fetchCategories (Ok [(key, JObj fields)]) = [category]
      ∧ prop category "id" = default (JStr key) (fields !! "id").
Proof.
  split; [apply normalize_dish_key|]. split.
  - unfold make_order. read_field.
    by rewrite prop_spread_default, key_or_empty_id.
  - eexists. split; [reflexivity|].
    by rewrite prop_spread_default, key_or_empty_id.
Qed.

(** *** Categories and banners on a successful read *)

(** X9.  A read that finds categories returns one record per child, in the
    order of the snapshot, and not the placeholder. *)
Theorem fetchCategories_nonempty (snapshot : children) :
  snapshot ≠ [] →
  fetchCategories (Ok snapshot)
  = map (λ child : string * JsVal, spread child.2 ∪ {["id" := JStr child.1]})
        snapshot.
Proof.
  intros Hne. unfold fetchCategories.
  assert (Hall : forEach snapshot
            (λ categoriesData '(key, val),
               push categoriesData (spread val ∪ {["id" := JStr (key_or_empty key)]}))
            []
          = map (λ child : string * JsVal,
                   spread child.2 ∪ {["id" := JStr child.1]}) snapshot).
  { rewrite <- (app_nil_l (map _ _)).
    generalize (@nil obj). unfold forEach.
    induction snapshot as [|[key val] l IH]; intros acc; simpl.
    - by rewrite app_nil_r.
    - destruct l as [|child l].
      + simpl. unfold push. by rewrite key_or_empty_id.
      + rewrite IH by done. unfold push.
        by rewrite key_or_empty_id, <- app_assoc. }
  rewrite Hall. rewrite length_map.
  destruct snapshot; [done|]. by rewrite bool_decide_eq_true_2 by (simpl; lia).
Qed.

(** X10.  When at least one banner stores an image URL, [fetchBanners]
    returns the banners that store one, in the order of the snapshot, and no
    placeholder; every banner returned has a non-empty URL. *)
Theorem fetchBanners_with_images (snapshot : children) :
  Exists (λ child : string * JsVal, truthy (get child.2 "imageUrl") = true)
         snapshot →
  fetchBanners (Ok snapshot)
  = omap (λ child : string * JsVal,
            if truthy (get child.2 "imageUrl")
            then Some {| downloadURL := get child.2 "imageUrl";
                         title := get child.2 "title" |}
            else None) snapshot
  ∧ Forall (λ banner, truthy (downloadURL banner) = true)
           (fetchBanners (Ok snapshot)).
Proof.
  intros Hex.
  assert (Heq : fetchBanners (Ok snapshot)
    = omap (λ child : string * JsVal,
              if truthy (get child.2 "imageUrl")
              then Some {| downloadURL := get child.2 "imageUrl";
                           title := get child.2 "title" |}
              else None) snapshot).
  { unfold fetchBanners.
    erewrite forEach_ext; [rewrite forEach_push_omap|].
    2:{ intros st [key banner]. cbn [fst snd].
        instantiate (1 := λ child : string * JsVal,
              if truthy (get child.2 "imageUrl")
              then Some {| downloadURL := get child.2 "imageUrl";
                           title := get child.2 "title" |}
              else None).
        cbn [fst snd]. by destruct (truthy (get banner "imageUrl")). }
    rewrite app_nil_l.
    rewrite bool_decide_eq_true_2; [done|].
    induction Hex as [[key banner] l Hx|[key banner] l _ IH].
    - cbn [fst snd] in Hx.
      erewrite omap_cons_Some; [simpl; lia|]. cbn [fst snd]. by rewrite Hx.
    - destruct (truthy (get banner "imageUrl")) eqn:Hb.
      + erewrite omap_cons_Some; [simpl; lia|]. cbn [fst snd]. by rewrite Hb.
      + erewrite omap_cons_None; [done|]. cbn [fst snd]. by rewrite Hb. }
  split; [done|]. rewrite Heq. apply Forall_forall. intros banner Hb.
  apply list_elem_of_omap in Hb as ([key val] & _ & Hsome). cbn [fst snd] in Hsome.
  destruct (truthy (get val "imageUrl")) eqn:Hurl; [|done].
  by injection Hsome as <-.
Qed.

(** ** Further properties of the settings *)

(** X11.  A settings node that is empty, or stores neither [theme] nor
    [delivery], gives the default settings, the same as a rejected read. *)
Theorem settings_absent_give_defaults (val e : JsVal) :
  truthy val = false
  ∨ (get val "theme" = JUndefined ∧ get val "delivery" = JUndefined) →
  fetchAppSettings (Ok val) = default_settings
  ∧ fetchAppSettings (Ok val) = fetchAppSettings (Throw e).
Proof.
  intros Habsent.
  assert (Hsettings : get (js_or val (JObj ∅)) "theme" = JUndefined
                     ∧ get (js_or val (JObj ∅)) "delivery" = JUndefined).
  { unfold js_or. destruct Habsent as [->|[Htheme Hdelivery]].
    - unfold get, prop. by rewrite !lookup_empty.
    - destruct (truthy val); [done|].
      unfold get, prop. by rewrite !lookup_empty. }
  assert (Heq : fetchAppSettings (Ok val) = default_settings).
  { unfold fetchAppSettings. destruct Hsettings as [-> ->]. reflexivity. }
  by split.
Qed.

(** X12.  A stored numeric delivery fee is used, except 0, which is
    replaced by the default fee 10; a stored numeric free-delivery threshold
    is used as it is. *)
Theorem stored_delivery_settings (val : JsVal) (fee threshold : Qc) :
  get (get val "delivery") "deliveryFee" = JNum (Fin fee) →
  get (get val "delivery") "freeDeliveryThreshold" = JNum (Fin threshold) →
  deliveryFee (delivery (fetchAppSettings (Ok val)))
  = (if Qc_eq_bool fee 0 then num_of_Z 10 else Fin fee)
  ∧ freeDeliveryThreshold (delivery (fetchAppSettings (Ok val))) = Fin threshold.
Proof.
  intros Hfee Hthreshold.
  destruct val as [| | | | | |fields]; try discriminate Hfee.
  destruct (get (JObj fields) "delivery") as [| | | | | |d] eqn:Hdelivery;
    try discriminate Hfee.
  unfold fetchAppSettings. cbn [delivery deliveryFee freeDeliveryThreshold].
  unfold js_or at 2 4. simpl truthy. cbv iota. rewrite Hdelivery.
  unfold get_opt. rewrite Hfee, Hthreshold, parseFloat_or_zero.
  split; [|done]. unfold js_or. simpl.
  by destruct (Qc_eq_bool fee 0).
Qed.

(** Whatever the backend answers, the theme colour returned is not empty. *)
Lemma theme_colour_never_empty (read : result JsVal) :
  truthy (customerThemeColor (theme (fetchAppSettings read))) = true.
Proof.
  destruct read as [val|e]; [|done].
  unfold fetchAppSettings. cbn [theme customerThemeColor].
  by apply truthy_js_or.
Qed.

(** ** The user profile *)

Lemma js_or_empty_string (v : JsVal) :
  truthy (js_or v (JStr "")) = true ∨ js_or v (JStr "") = JStr "".
Proof. unfold js_or. destruct (truthy v) eqn:Hv; auto. Qed.

(** X13.  The profile [fetchUserData] returns carries the uid it was asked
    for, whatever the stored record says; its name is never empty, and its
    mobile, pincode and address lines are either a non-empty stored value or
    the empty string. *)
Theorem fetched_profile_fields (user_id : string) (data : JsVal) (user : UserData) :
  fetchUserData user_id (Ok data) = Ok (Some user) →
  uid user = user_id
  ∧ truthy (name user) = true
  ∧ (truthy (mobile user) = true ∨ mobile user = JStr "")
  ∧ (truthy (pincode user) = true ∨ pincode user = JStr "")
  ∧ (truthy (state (address user)) = true ∨ state (address user) = JStr "")
  ∧ (truthy (district (address user)) = true ∨ district (address user) = JStr "")
  ∧ (truthy (line (address user)) = true ∨ line (address user) = JStr "").
Proof.
  unfold fetchUserData. destruct (snapshot_exists data); [|done].
  intros [= <-]. cbn [uid name mobile pincode address state district line].
  repeat split; try apply js_or_empty_string.
  by apply truthy_js_or.
Qed.

(** X14.  A profile that was never saved is reported as absent; after
    [saveNewUserData], [fetchUserData] finds it, with [createdAt] the time
    of saving and the name, mobile and pincode the caller supplied (or their
    defaults). *)
Theorem saved_profile_is_fetched (user_id : string) (data : obj) (now : string)
    (db : database) :
  now ≠ "" →
  (db !! ("users/" +:+ user_id) = None →
   fetchUserData user_id (Ok (db_get ("users/" +:+ user_id) db)) = Ok None)
  ∧ ∃ user,
      fetchUserData user_id
        (Ok (db_get ("users/" +:+ user_id) (saveNewUserData user_id data now db)))
      = Ok (Some user)
      ∧ createdAt user = JStr now
      ∧ name user = js_or (prop data "name") (JStr "User Name")
      ∧ mobile user = js_or (prop data "mobile") (JStr "")
      ∧ pincode user = js_or (prop data "pincode") (JStr "").
Proof.
  intros Hnow. split.
  { intros Hnone. unfold db_get. by rewrite Hnone. }
  assert (Hread : db_get ("users/" +:+ user_id) (saveNewUserData user_id data now db)
                  = JObj (<["createdAt" := JStr now]> data)).
  { unfold saveNewUserData, db_set, db_get. by rewrite lookup_insert_eq. }
  rewrite Hread. eexists. split; [reflexivity|].
  cbn [createdAt name mobile pincode get].
  rewrite prop_insert_eq, !prop_insert_ne by done.
  repeat split. unfold js_or. simpl.
  apply String.eqb_neq in Hnow. by rewrite Hnow.
Qed.

(** ** The wishlist *)

Lemma forEach_push_map {A : Type} (f : string * JsVal → A) (snapshot : children) :
  forEach snapshot (λ acc child, push acc (f child)) [] = map f snapshot.
Proof.
  rewrite <- (app_nil_l (map f snapshot)). generalize (@nil A). unfold forEach.
  induction snapshot as [|child l IH]; intros acc; simpl.
  - by rewrite app_nil_r.
  - rewrite IH. unfold push. by rewrite <- app_assoc.
Qed.

(** X15.  On the same wishlist snapshot, the keys handed to the listener
    and the items [fetchWishlistItems] returns line up: the i-th key is the
    database key of the i-th item.  A wishlist that does not exist gives no
    key and no item. *)
Theorem wishlist_keys_line_up_with_items (kids : children) :
  (∃ items,
     fetchWishlistItems (Ok (Some kids)) = Ok items
     ∧ zip (listenForWishlistUpdates (Some kids)) items = kids)
  ∧ listenForWishlistUpdates None = []
  ∧ fetchWishlistItems (Ok None) = Ok [].
Proof.
  split; [|done]. eexists. split; [reflexivity|].
  unfold listenForWishlistUpdates.
  rewrite (forEach_ext _ (λ acc child, push acc child.2)) by (by intros ? [??]).
  rewrite (forEach_ext _ (λ acc child, push acc child.1))
    by (intros ? [??]; cbn [fst]; by rewrite key_or_empty_id).
  rewrite !forEach_push_map. apply zip_fst_snd.
Qed.

(** ** Further properties of the order listener *)

Lemma strict_eq_str_true (v : JsVal) (s : string) :
  strict_eq_str v s = true → v = JStr s.
Proof.
  destruct v; try discriminate. simpl. intros Heq.
  by apply String.eqb_eq in Heq as ->.
Qed.

Lemma attach_driver_other_field (cache order : obj) (f : string) :
  f ≠ "driverDetails" → attach_driver cache order !! f = order !! f.
Proof.
  intros Hf. unfold attach_driver. destruct (on_way_with_driver order); [|done].
  by rewrite lookup_insert_ne.
Qed.

Lemma delete_attach_driver (cache order : obj) :
  delete "driverDetails" (attach_driver cache order) = delete "driverDetails" order.
Proof.
  unfold attach_driver. destruct (on_way_with_driver order); [|done].
  apply delete_insert_eq.
Qed.

(** The delivered orders, as members of the snapshot: one cache serves all
    of them. *)
Lemma delivered_elem (uid : string) (snapshot : children)
    (responses : nat → result JsVal) (completion : list nat) :
  ∃ cache : obj,
    delivered (listenForUserOrders uid snapshot responses completion)
      ≡ₚ map (attach_driver cache) (omap (user_order uid) snapshot)
    ∧ ∀ order,
        order ∈ delivered (listenForUserOrders uid snapshot responses completion)
        ↔ ∃ key fields,
            (key, JObj fields) ∈ snapshot
            ∧ strict_eq_str (get (JObj fields) "userId") uid = true
            ∧ order = attach_driver cache (make_order key (JObj fields)).
Proof.
  eexists. split; [apply delivered_perm|].
  intros order. rewrite delivered_perm, list_elem_of_fmap. split.
  - intros (o & -> & Ho). apply list_elem_of_omap in Ho as ([key val] & Hin & Ho).
    apply user_order_inv in Ho as (fields & Hval & Huid & ->).
    cbn [fst snd] in *. subst val. eauto 6.
  - intros (key & fields & Hin & Huid & ->). eexists. split; [done|].
    apply list_elem_of_omap. exists (key, JObj fields). split; [done|].
    by apply user_order_Some.
Qed.

(** X16.  Every delivered order belongs to the user the listener was
    started for, and carries a non-empty [customerStatus]. *)
Theorem delivered_orders_belong_to_user (uid : string) (snapshot : children)
    (responses : nat → result JsVal) (completion : list nat) (order : obj) :
  order ∈ delivered (listenForUserOrders uid snapshot responses completion) →
  prop order "userId" = JStr uid
  ∧ truthy (prop order "customerStatus") = true.
Proof.
  destruct (delivered_elem uid snapshot responses completion) as (cache & _ & Helem).
  intros Hin. apply Helem in Hin as (key & fields & _ & Huid & ->).
  unfold prop. rewrite !attach_driver_other_field by done.
  fold (prop (make_order key (JObj fields)) "userId").
  fold (prop (make_order key (JObj fields)) "customerStatus").
  split.
  - apply strict_eq_str_true in Huid. rewrite <- Huid.
    unfold make_order. by read_field.
  - rewrite make_order_customerStatus. by apply truthy_js_or.
Qed.

(** X17.  Every driver lookup of a batch is for an order of the user that
    is on its way with that driver: no lookup is sent for the orders of
    other users, nor for orders in another state. *)
Theorem lookups_only_for_orders_on_the_way (uid : string) (snapshot : children)
    (responses : nat → result JsVal) (completion : list nat) (id : string) :
  id ∈ lookups (listenForUserOrders uid snapshot responses completion) →
  ∃ key val,
    (key, val) ∈ snapshot
    ∧ strict_eq_str (get val "userId") uid = true
    ∧ on_way_with_driver (make_order key val) = true
    ∧ id = driver_key (make_order key val).
Proof.
  rewrite lookups_per_order. intros Hid.
  apply list_elem_of_omap in Hid as (order & Horder & Hneeded).
  apply list_elem_of_omap in Horder as ([key val] & Hin & Horder).
  apply user_order_inv in Horder as (fields & _ & Huid & ->).
  cbn [fst snd] in *. unfold driver_needed in Hneeded.
  destruct (on_way_with_driver (make_order key val)) eqn:Hway; [|done].
  injection Hneeded as <-. eauto 6.
Qed.

(** The driver record an order is delivered with, once the lookups of its
    driver have settled with the same outcome. *)
Lemma driver_details_after_settlement (uid : string) (snapshot : children)
    (responses : nat → result JsVal) (completion : list nat)
    (key : string) (val details : JsVal) :
  (key, val) ∈ snapshot →
  strict_eq_str (get val "userId") uid = true →
  on_way_with_driver (make_order key val) = true →
  completion ≡ₚ seq 0 (length (omap driver_needed (omap (user_order uid) snapshot))) →
  (∀ i,
     omap driver_needed (omap (user_order uid) snapshot) !! i
       = Some (driver_key (make_order key val)) →
     driver_entry (responses i) = details) →
  <["driverDetails" := details]> (make_order key val)
  ∈ delivered (listenForUserOrders uid snapshot responses completion).
Proof.
  intros Hin Huid Hway Hall Hsame.
  assert (Horder : make_order key val ∈ omap (user_order uid) snapshot).
  { apply list_elem_of_omap. exists (key, val). split; [done|].
    by apply user_order_Some. }
  rewrite delivered_perm. apply list_elem_of_fmap.
  exists (make_order key val). split; [|done].
  unfold attach_driver. rewrite Hway. f_equal.
  unfold prop. rewrite visit_orders_init.
  erewrite settle_all_cache; [done| |]; cbn [dpPromises].
  - exact Hsame.
  - assert (Hid : driver_key (make_order key val)
                  ∈ omap driver_needed (omap (user_order uid) snapshot)).
    { apply list_elem_of_omap. exists (make_order key val). split; [done|].
      unfold driver_needed. by rewrite Hway. }
    apply list_elem_of_lookup in Hid as [i Hi]. exists i. split; [|done].
    rewrite Hall. apply elem_of_seq. apply lookup_lt_Some in Hi. lia.
Qed.


(** X19.  Two orders of the user on their way with the same driver are
    delivered with the same driver record, whatever the lookups answered and
    in whatever order they settled. *)
Theorem same_driver_same_details (uid : string) (snapshot : children)
    (responses : nat → result JsVal) (completion : list nat)
    (key1 key2 : string) (val1 val2 : JsVal) :
  (key1, val1) ∈ snapshot → (key2, val2) ∈ snapshot →
  strict_eq_str (get val1 "userId") uid = true →
  strict_eq_str (get val2 "userId") uid = true →
  on_way_with_driver (make_order key1 val1) = true →
  on_way_with_driver (make_order key2 val2) = true →
  driver_key (make_order key1 val1) = driver_key (make_order key2 val2) →
  ∃ details,
    <["driverDetails" := details]> (make_order key1 val1)
      ∈ delivered (listenForUserOrders uid snapshot responses completion)
    ∧ <["driverDetails" := details]> (make_order key2 val2)
      ∈ delivered (listenForUserOrders uid snapshot responses completion).
Proof.
  intros Hin1 Hin2 Huid1 Huid2 Hway1 Hway2 Hkey.
  destruct (delivered_elem uid snapshot responses completion) as (cache & Hperm & _).
  exists (prop cache (driver_key (make_order key1 val1))).
  rewrite !Hperm. split.
  - apply list_elem_of_fmap. exists (make_order key1 val1). split.
    + unfold attach_driver. by rewrite Hway1.
    + apply list_elem_of_omap. exists (key1, val1). split; [done|].
      by apply user_order_Some.
  - apply list_elem_of_fmap. exists (make_order key2 val2). split.
    + unfold attach_driver. by rewrite Hway2, Hkey.
    + apply list_elem_of_omap. exists (key2, val2). split; [done|].
      by apply user_order_Some.
Qed.

(** X20.  Every order of the user is delivered exactly once and nothing
    else is: up to the attached driver record and to the order of the list,
    the delivered orders are the orders built from the user's children. *)
Theorem every_user_order_is_delivered_once (uid : string) (snapshot : children)
    (responses : nat → result JsVal) (completion : list nat) :
  map (delete "driverDetails")
      (delivered (listenForUserOrders uid snapshot responses completion))
  ≡ₚ map (delete "driverDetails") (omap (user_order uid) snapshot).
Proof.
  rewrite delivered_perm. rewrite map_map.
  erewrite map_ext; [done|]. intros order. apply delete_attach_driver.
Qed.


Lemma array_sort_already_in_order {A : Type} (comparator : A → A → number)
    (l : list A) :
  (∀ x y, x ∈ l → y ∈ l → sorts_after comparator x y = false) →
  array_sort comparator l = l.
Proof.
  unfold array_sort. induction l as [|x l IH]; intros Hcmp; simpl; [done|].
  rewrite IH by (intros y z Hy Hz; apply Hcmp; by apply elem_of_cons; right).
  destruct l as [|y l]; [done|]. simpl.
  rewrite Hcmp; [done|apply list_elem_of_here|].
  apply list_elem_of_further, list_elem_of_here.
Qed.

Lemma sorts_after_same_timestamp (a b : obj) :
  prop a "timestamp" = prop b "timestamp" →
  sorts_after newest_first a b = false.
Proof.
  intros Hsame. unfold sorts_after, newest_first, Js.js_sub. rewrite Hsame.
  destruct (ToNumber (prop b "timestamp")) as [|t]; simpl; [done|].
  replace (t - t)%Qc with 0%Qc by ring.
  by rewrite (proj1 (Qceq_alt 0 0) eq_refl).
Qed.

(** X22.  When the orders of the user all store the same timestamp, or
    none, the comparator never moves an order and the list is delivered in
    the order of the snapshot. *)
Theorem equal_timestamps_keep_snapshot_order (uid : string) (snapshot : children)
    (responses : nat → result JsVal) (completion : list nat) (t : JsVal) :
  (∀ key val,
     (key, val) ∈ snapshot →
     strict_eq_str (get val "userId") uid = true →
     get val "timestamp" = t) →
  map (delete "driverDetails")
      (delivered (listenForUserOrders uid snapshot responses completion))
  = map (delete "driverDetails") (omap (user_order uid) snapshot).
Proof.
  intros Hsame. unfold listenForUserOrders. cbn [delivered].
  destruct (settle_all_orders responses completion
              (forEach snapshot (visit_order uid) listener_init)) as [-> _].
  rewrite visit_orders_init at 2. cbn [userOrders].
  rewrite array_sort_already_in_order.
  { rewrite map_map. apply map_ext. intros order. apply delete_attach_driver. }
  assert (Htime : ∀ o,
    o ∈ map (attach_driver
               (dpCache (foldl (settle responses)
                           (forEach snapshot (visit_order uid) listener_init)
                           completion)))
            (omap (user_order uid) snapshot) →
    prop o "timestamp" = t).
  { intros o Ho. apply list_elem_of_fmap in Ho as (order & -> & Ho).
    apply list_elem_of_omap in Ho as ([key val] & Hin & Horder).
    apply user_order_inv in Horder as (fields & Hval & Huid & ->).
    cbn [fst snd] in *. subst val.
    rewrite attach_driver_timestamp, make_order_timestamp.
    by apply (Hsame key). }
  intros x y Hx Hy. apply sorts_after_same_timestamp.
  by rewrite (Htime x Hx), (Htime y Hy).
Qed.

End Facade.

(** ** The facade on concrete data *)

(** The two dishes of the sample snapshot for caller pincode 560001: the
    dish of pincode 560002 is skipped, the dish marked ["ALL"] is returned. *)
Example dishes_for_560001 :
  fetchDishes Samples.NumberToString Samples.StringToNumber
    Samples.parseFloatString Samples.placeholder_dishes
    (Ok Samples.dishes_snapshot) (Some "560001")
  = Ok [normalize_dish Samples.NumberToString Samples.StringToNumber
          Samples.parseFloatString "d2" Samples.dish_all].
Proof. vm_compute. reflexivity. Qed.

(** The sample orders of user [u1], as delivered: newest first. *)
Example delivered_sample_orders :
  map (λ order : obj, (prop order "k", prop order "customerStatus",
                       prop order "driverDetails"))
    (delivered
       (listenForUserOrders Samples.NumberToString Samples.StringToNumber
          Samples.simulated_driver Samples.status_map "u1"
          Samples.orders_snapshot Samples.backend_down [0; 1]))
  = [(JStr "o2", JStr "On Way", Samples.simulated_driver);
     (JStr "o4", JStr "Processing", JUndefined);
     (JStr "o1", JStr "On Way", Samples.simulated_driver)].
Proof. vm_compute. reflexivity. Qed.

(** C1.  The snapshot holds two orders of user [u1] on their way with driver
    [driver7]; the listener sends two lookups for [driver7], one per order,
    where the claim allows one. *)
Theorem duplicate_driver_lookups :
  lookups
    (listenForUserOrders Samples.NumberToString Samples.StringToNumber
       Samples.simulated_driver Samples.status_map "u1"
       Samples.orders_snapshot Samples.backend_down [0; 1])
  = ["driver7"; "driver7"]
  ∧ lookups_for "driver7"
      (listenForUserOrders Samples.NumberToString Samples.StringToNumber
         Samples.simulated_driver Samples.status_map "u1"
         Samples.orders_snapshot Samples.backend_down [0; 1])
    = 2.
Proof. split; vm_compute; reflexivity. Qed.






(** Witness of C8: two banners without an image. *)
Lemma empty_read_is_like_rejected_read_witness :
  Forall (λ child : string * JsVal, truthy (get child.2 "imageUrl") = false)
         Samples.banners_snapshot
  ∧ fetchCategories [] (Ok []) = []
  ∧ fetchCategories [] (Ok []) = fetchCategories [] (Throw (JStr "offline"))
  ∧ fetchBanners [] (Ok Samples.banners_snapshot) = []
  ∧ fetchBanners [] (Ok Samples.banners_snapshot)
    = fetchBanners [] (Throw (JStr "offline")).
Proof.
  assert (Hnone : Forall (λ child : string * JsVal,
                            truthy (get child.2 "imageUrl") = false)
                         Samples.banners_snapshot).
  { repeat constructor. }
  split; [exact Hnone|].
  apply (empty_read_is_like_rejected_read [] [] Samples.banners_snapshot
           (JStr "offline") Hnone).
Defined.

(** Witness of C10: the caller supplies an old [createdAt]. *)
Lemma saveNewUserData_createdAt_witness :
  "name" ≠ "createdAt"
  ∧ ∃ record,
      saveNewUserData "u1" Samples.user_data "2026-01-01T00:00:00.000Z" ∅
        !! ("users/" +:+ "u1") = Some (JObj record)
      ∧ record !! "createdAt" = Some (JStr "2026-01-01T00:00:00.000Z")
      ∧ record !! "name" = Samples.user_data !! "name".
Proof.
  split; [discriminate|].
  apply (saveNewUserData_createdAt "u1" Samples.user_data
           "2026-01-01T00:00:00.000Z" ∅ "name").
  discriminate.
Defined.




(** ** The further properties on concrete data *)



(** Witness of X3: the price ["ask"]. *)
Lemma unparsable_price_counts_as_zero_witness :
  get Samples.dish_unparsable "price" = JStr "ask"
  ∧ "ask" ≠ ""
  ∧ Samples.parseFloatString "ask" = NaN
  ∧ get (prop (normalize_dish Samples.NumberToString Samples.StringToNumber
                 Samples.parseFloatString "d4" Samples.dish_unparsable) "price")
        "final"
    = JNum NaN.
Proof.
  split; [vm_compute; reflexivity|]. split; [discriminate|].
  split; [reflexivity|].
  apply (unparsable_price_counts_as_zero Samples.NumberToString
           Samples.StringToNumber Samples.parseFloatString
           "d4" Samples.dish_unparsable "ask").
  - vm_compute; reflexivity.
  - discriminate.
  - reflexivity.
Defined.

(** Witness of X4: price 100, discount 10. *)
Lemma customerPrice_between_zero_and_price_witness :
  get (get Samples.dish_560002 "price") "final" = JNum (Fin (Qc_of_Z 100))
  ∧ get Samples.dish_560002 "discount" = JNum (Fin (Qc_of_Z 10))
  ∧ (0 ≤ Qc_of_Z 100)%Qc ∧ (0 ≤ Qc_of_Z 10)%Qc ∧ (Qc_of_Z 10 ≤ Qc_of_Z 100)%Qc
  ∧ ∃ c, prop (normalize_dish Samples.NumberToString Samples.StringToNumber
                 Samples.parseFloatString "d1" Samples.dish_560002)
              "customerPrice" = JNum (Fin c)
         ∧ (0 ≤ c)%Qc ∧ (c ≤ Qc_of_Z 100)%Qc.
Proof.
  split; [vm_compute; reflexivity|]. split; [vm_compute; reflexivity|].
  split; [discriminate|]. split; [discriminate|]. split; [discriminate|].
  apply (customerPrice_between_zero_and_price Samples.NumberToString
           Samples.StringToNumber Samples.parseFloatString
           "d1" Samples.dish_560002 (Qc_of_Z 100) (Qc_of_Z 10)).
  - vm_compute; reflexivity.
  - vm_compute; reflexivity.
  - discriminate.
  - discriminate.
  - discriminate.
Defined.

(** Witness of X5: the dish priced 40 stores no discount. *)
Lemma customerPrice_without_discount_witness :
  get (get Samples.dish_all "price") "final" = JNum (Fin (Qc_of_Z 40))
  ∧ truthy (get Samples.dish_all "discount") = false
  ∧ prop (normalize_dish Samples.NumberToString Samples.StringToNumber
            Samples.parseFloatString "d2" Samples.dish_all) "customerPrice"
    = JNum (Fin (Qc_of_Z 40)).
Proof.
  split; [vm_compute; reflexivity|]. split; [vm_compute; reflexivity|].
  apply (customerPrice_without_discount Samples.NumberToString
           Samples.StringToNumber Samples.parseFloatString
           "d2" Samples.dish_all (Qc_of_Z 40)).
  - vm_compute; reflexivity.
  - vm_compute; reflexivity.
Defined.


(** Witness of X9: two categories. *)
Lemma fetchCategories_nonempty_witness :
  Samples.categories_snapshot ≠ []
  ∧ fetchCategories [] (Ok Samples.categories_snapshot)
    = map (λ child : string * JsVal, spread child.2 ∪ {["id" := JStr child.1]})
          Samples.categories_snapshot.
Proof.
  split; [discriminate|].
  apply (fetchCategories_nonempty [] Samples.categories_snapshot).
  discriminate.
Defined.

(** Witness of X10: one banner of two stores an image. *)
Lemma fetchBanners_with_images_witness :
  Exists (λ child : string * JsVal, truthy (get child.2 "imageUrl") = true)
         Samples.banners_with_image
  ∧ Forall (λ banner, truthy (downloadURL banner) = true)
           (fetchBanners [] (Ok Samples.banners_with_image)).
Proof.
  assert (Hex : Exists (λ child : string * JsVal,
                          truthy (get child.2 "imageUrl") = true)
                       Samples.banners_with_image).
  { apply Exists_cons_tl, Exists_cons_hd. vm_compute; reflexivity. }
  split; [exact Hex|].
  apply (fetchBanners_with_images [] Samples.banners_with_image Hex).
Defined.

(** Witness of X11: an empty settings node. *)
Lemma settings_absent_give_defaults_witness :
  (truthy JNull = false
   ∨ (get JNull "theme" = JUndefined ∧ get JNull "delivery" = JUndefined))
  ∧ fetchAppSettings Samples.NumberToString Samples.parseFloatString (Ok JNull)
    = default_settings.
Proof.
  split; [by left|].
  apply (settings_absent_give_defaults Samples.NumberToString
           Samples.parseFloatString JNull JNull).
  by left.
Defined.

(** Witness of X12: a stored fee of 0 and a threshold of 200. *)
Lemma stored_delivery_settings_witness :
  get (get Samples.settings_free_delivery "delivery") "deliveryFee"
  = JNum (Fin (Qc_of_Z 0))
  ∧ get (get Samples.settings_free_delivery "delivery") "freeDeliveryThreshold"
    = JNum (Fin (Qc_of_Z 200))
  ∧ deliveryFee (delivery (fetchAppSettings Samples.NumberToString
                             Samples.parseFloatString
                             (Ok Samples.settings_free_delivery)))
    = (if Qc_eq_bool (Qc_of_Z 0) 0 then num_of_Z 10 else Fin (Qc_of_Z 0))
  ∧ freeDeliveryThreshold
      (delivery (fetchAppSettings Samples.NumberToString
                   Samples.parseFloatString (Ok Samples.settings_free_delivery)))
    = Fin (Qc_of_Z 200).
Proof.
  split; [vm_compute; reflexivity|]. split; [vm_compute; reflexivity|].
  apply (stored_delivery_settings Samples.NumberToString
           Samples.parseFloatString Samples.settings_free_delivery
           (Qc_of_Z 0) (Qc_of_Z 200)).
  - vm_compute; reflexivity.
  - vm_compute; reflexivity.
Defined.

(** Witness of X13: a stored profile with a name only. *)
Lemma fetched_profile_fields_witness :
  ∃ user,
    fetchUserData "u1" (Ok (JObj Samples.user_data)) = Ok (Some user)
    ∧ uid user = "u1"
    ∧ truthy (name user) = true
    ∧ (truthy (mobile user) = true ∨ mobile user = JStr "")
    ∧ (truthy (pincode user) = true ∨ pincode user = JStr "")
    ∧ (truthy (state (address user)) = true ∨ state (address user) = JStr "")
    ∧ (truthy (district (address user)) = true
       ∨ district (address user) = JStr "")
    ∧ (truthy (line (address user)) = true ∨ line (address user) = JStr "").
Proof.
  eexists. split; [reflexivity|].
  apply (fetched_profile_fields "u1" (JObj Samples.user_data)).
  reflexivity.
Defined.

(** Witness of X14: saving the sample profile in an empty store. *)
Lemma saved_profile_is_fetched_witness :
  "2026-01-01T00:00:00.000Z" ≠ ""
  ∧ ∃ user,
      fetchUserData "u1"
        (Ok (db_get ("users/" +:+ "u1")
               (saveNewUserData "u1" Samples.user_data
                  "2026-01-01T00:00:00.000Z" ∅)))
      = Ok (Some user)
      ∧ createdAt user = JStr "2026-01-01T00:00:00.000Z"
      ∧ name user = js_or (prop Samples.user_data "name") (JStr "User Name")
      ∧ mobile user = js_or (prop Samples.user_data "mobile") (JStr "")
      ∧ pincode user = js_or (prop Samples.user_data "pincode") (JStr "").
Proof.
  split; [discriminate|].
  apply (saved_profile_is_fetched "u1" Samples.user_data
           "2026-01-01T00:00:00.000Z" ∅).
  discriminate.
Defined.

(** Witness of X16: an order delivered for user [u1]. *)
Lemma delivered_orders_belong_to_user_witness :
  ∃ order,
    order
    ∈ delivered
        (listenForUserOrders Samples.NumberToString Samples.StringToNumber
           Samples.simulated_driver Samples.status_map "u1"
           Samples.orders_snapshot Samples.backend_down [0; 1])
    ∧ prop order "userId" = JStr "u1"
    ∧ truthy (prop order "customerStatus") = true.
Proof.
  assert (Hin :
    make_order Samples.NumberToString Samples.status_map "o4"
      (Samples.order "u1" "delivered" None 2000)
    ∈ delivered
        (listenForUserOrders Samples.NumberToString Samples.StringToNumber
           Samples.simulated_driver Samples.status_map "u1"
           Samples.orders_snapshot Samples.backend_down [0; 1])).
  { vm_compute. apply list_elem_of_further, list_elem_of_here. }
  eexists. split; [exact Hin|].
  apply (delivered_orders_belong_to_user Samples.NumberToString
           Samples.StringToNumber Samples.simulated_driver Samples.status_map
           "u1" Samples.orders_snapshot Samples.backend_down [0; 1] _ Hin).
Defined.

(** Witness of X17: a lookup of the sample batch. *)
Lemma lookups_only_for_orders_on_the_way_witness :
  "driver7"
  ∈ lookups
      (listenForUserOrders Samples.NumberToString Samples.StringToNumber
         Samples.simulated_driver Samples.status_map "u1"
         Samples.orders_snapshot Samples.backend_down [0; 1])
  ∧ ∃ key val,
      (key, val) ∈ Samples.orders_snapshot
      ∧ strict_eq_str (get val "userId") "u1" = true
      ∧ on_way_with_driver
          (make_order Samples.NumberToString Samples.status_map key val) = true
      ∧ "driver7"
        = driver_key Samples.NumberToString
            (make_order Samples.NumberToString Samples.status_map key val).
Proof.
  assert (Hin :
    "driver7"
    ∈ lookups
        (listenForUserOrders Samples.NumberToString Samples.StringToNumber
           Samples.simulated_driver Samples.status_map "u1"
           Samples.orders_snapshot Samples.backend_down [0; 1])).
  { vm_compute. apply list_elem_of_here. }
  split; [exact Hin|].
  apply (lookups_only_for_orders_on_the_way Samples.NumberToString
           Samples.StringToNumber Samples.simulated_driver Samples.status_map
           "u1" Samples.orders_snapshot Samples.backend_down [0; 1]
           "driver7" Hin).
Defined.


(** Witness of X19: the orders [o1] and [o2] share [driver7]. *)
Lemma same_driver_same_details_witness :
  driver_key Samples.NumberToString
    (make_order Samples.NumberToString Samples.status_map "o1"
       (Samples.order "u1" "out_for_delivery" (Some "driver7") 1000))
  = driver_key Samples.NumberToString
      (make_order Samples.NumberToString Samples.status_map "o2"
         (Samples.order "u1" "out_for_delivery" (Some "driver7") 3000))
  ∧ ∃ details,
      <["driverDetails" := details]>
        (make_order Samples.NumberToString Samples.status_map "o1"
           (Samples.order "u1" "out_for_delivery" (Some "driver7") 1000))
      ∈ delivered
          (listenForUserOrders Samples.NumberToString Samples.StringToNumber
             Samples.simulated_driver Samples.status_map "u1"
             Samples.orders_snapshot Samples.backend_up [1; 0])
      ∧ <["driverDetails" := details]>
          (make_order Samples.NumberToString Samples.status_map "o2"
             (Samples.order "u1" "out_for_delivery" (Some "driver7") 3000))
        ∈ delivered
            (listenForUserOrders Samples.NumberToString Samples.StringToNumber
               Samples.simulated_driver Samples.status_map "u1"
               Samples.orders_snapshot Samples.backend_up [1; 0]).
Proof.
  split; [vm_compute; reflexivity|].
  apply (same_driver_same_details Samples.NumberToString
           Samples.StringToNumber Samples.simulated_driver Samples.status_map
           "u1" Samples.orders_snapshot Samples.backend_up [1; 0]
           "o1" "o2"
           (Samples.order "u1" "out_for_delivery" (Some "driver7") 1000)
           (Samples.order "u1" "out_for_delivery" (Some "driver7") 3000)).
  - apply list_elem_of_here.
  - apply list_elem_of_further, list_elem_of_here.
  - vm_compute; reflexivity.
  - vm_compute; reflexivity.
  - vm_compute; reflexivity.
  - vm_compute; reflexivity.
  - vm_compute; reflexivity.
Defined.


(** Witness of X22: two orders that store no timestamp. *)
Lemma equal_timestamps_keep_snapshot_order_witness :
  (∀ key val,
     (key, val) ∈ Samples.orders_without_timestamp →
     strict_eq_str (get val "userId") "u1" = true →
     get val "timestamp" = JUndefined)
  ∧ map (delete "driverDetails")
        (delivered
           (listenForUserOrders Samples.NumberToString Samples.StringToNumber
              Samples.simulated_driver Samples.status_map "u1"
              Samples.orders_without_timestamp Samples.backend_down [0]))
    = map (delete "driverDetails")
          (omap (user_order Samples.NumberToString Samples.status_map "u1")
                Samples.orders_without_timestamp).
Proof.
  assert (Hsame : ∀ key val,
     (key, val) ∈ Samples.orders_without_timestamp →
     strict_eq_str (get val "userId") "u1" = true →
     get val "timestamp" = JUndefined).
  { intros key val Hin _. unfold Samples.orders_without_timestamp in Hin.
    repeat (apply elem_of_cons in Hin as [Hin|Hin];
            [injection Hin as -> ->; vm_compute; reflexivity|]).
    by apply elem_of_nil in Hin. }
  split; [exact Hsame|].
  apply (equal_timestamps_keep_snapshot_order Samples.NumberToString
           Samples.StringToNumber Samples.simulated_driver Samples.status_map
           "u1" Samples.orders_without_timestamp Samples.backend_down [0]
           JUndefined Hsame).
Defined.
